(** * FSFVI: vulnerability index and allocation optimizer

    A shallow embedding of [frontend/src/lib/fsfvi-algorithms.ts], and of
    [runFSFVIComputation] of [frontend/src/lib/fsfvi-ui-adapter.ts], which
    calls it.

    Numbers.  A JavaScript number is modelled by [number]: a finite value is
    an exact rational (no rounding is modelled, except in [Binary64], which
    repeats the final rescaling of the optimizer on binary64 numbers), and
    the three non-finite
    values [Infinity], [-Infinity] and [NaN] are kept apart, because the
    code produces and tests them (the loop starts from [Infinity], and
    every division whose divisor may vanish yields one of them).  Zero is
    unsigned: a nonzero finite number divided by zero gives the infinity of
    the sign of the numerator, which is what JavaScript gives for [+0].

    Objects used as maps ([Record<string, T>]) are association lists in
    [Object.keys] order.  A JavaScript object never holds a key twice; the
    predicate [unique_keys] states it where a theorem needs it.  Keys are
    taken not to be names of [Object.prototype] members, so that reading
    a constant table at a key it does not list gives [undefined].

    A loop [ids.forEach(id => m[id] = ...)] that assigns every key of an
    object builds the list [(id, ...)] over [ids]; what it reads from
    other objects at [id] is read with [get].  A field typed [number] that
    may be [undefined] at run time behaves there as [NaN] does. *)

From Stdlib Require Import ZArith QArith Qabs Qround Qminmax Lqa Lia.
From Stdlib Require Import String List Bool Arith Sorted.
From Stdlib Require PrimFloat FloatOps SpecFloat.
Import ListNotations.

Open Scope Q_scope.

(* ================================================================= *)
(** ** JavaScript numbers *)

Inductive number : Type :=
| Finite (q : Q)
| PosInf
| NegInf
| NaN.

Coercion Finite : Q >-> number.

Declare Scope num_scope.
Delimit Scope num_scope with num.
Bind Scope num_scope with number.

Definition nneg (a : number) : number :=
  match a with
  | Finite x => Finite (- x)
  | PosInf => NegInf
  | NegInf => PosInf
  | NaN => NaN
  end.

Definition nadd (a b : number) : number :=
  match a, b with
  | NaN, _ | _, NaN => NaN
  | Finite x, Finite y => Finite (x + y)
  | PosInf, NegInf | NegInf, PosInf => NaN
  | PosInf, _ | _, PosInf => PosInf
  | NegInf, _ | _, NegInf => NegInf
  end.

Definition nsub (a b : number) : number := nadd a (nneg b).

(** Sign of a rational: [Gt] positive, [Eq] zero, [Lt] negative. *)
Definition Qsign (x : Q) : comparison := 0 ?= x.

Definition inf_of_sign (c : comparison) : number :=
  match c with
  | Lt => PosInf
  | Gt => NegInf
  | Eq => NaN
  end.

Definition nsign (a : number) : option comparison :=
  match a with
  | Finite x => Some (Qsign x)
  | PosInf => Some Lt
  | NegInf => Some Gt
  | NaN => None
  end.

Definition sign_mul (c d : comparison) : comparison :=
  match c, d with
  | Eq, _ | _, Eq => Eq
  | Lt, Lt | Gt, Gt => Lt
  | _, _ => Gt
  end.

Definition nmul (a b : number) : number :=
  match a, b with
  | Finite x, Finite y => Finite (x * y)
  | _, _ =>
      match nsign a, nsign b with
      | Some c, Some d => inf_of_sign (sign_mul c d)
      | _, _ => NaN
      end
  end.

Definition ndiv (a b : number) : number :=
  match a, b with
  | Finite x, Finite y =>
      if Qeq_bool y 0 then inf_of_sign (Qsign x) else Finite (x / y)
  | Finite _, (PosInf | NegInf) => Finite 0
  | (PosInf | NegInf), Finite y =>
      match nsign a with
      | Some c => inf_of_sign (sign_mul c (if Qeq_bool y 0 then Lt else Qsign y))
      | None => NaN
      end
  | _, _ => NaN
  end.

Definition nabs (a : number) : number :=
  match a with
  | Finite x => Finite (Qabs x)
  | PosInf | NegInf => PosInf
  | NaN => NaN
  end.

(** Comparisons are [false] as soon as one side is [NaN]. *)
Definition nltb (a b : number) : bool :=
  match a, b with
  | NaN, _ | _, NaN => false
  | Finite x, Finite y => negb (Qle_bool y x)
  | NegInf, NegInf => false
  | NegInf, _ => true
  | _, NegInf => false
  | PosInf, _ => false
  | _, PosInf => true
  end.

Definition nleb (a b : number) : bool :=
  match a, b with
  | NaN, _ | _, NaN => false
  | Finite x, Finite y => Qle_bool x y
  | NegInf, _ => true
  | _, NegInf => false
  | _, PosInf => true
  | PosInf, _ => false
  end.

Definition ngtb (a b : number) : bool := nltb b a.
Definition ngeb (a b : number) : bool := nleb b a.

(** Strict equality [===] on numbers. *)
Definition neqb (a b : number) : bool :=
  match a, b with
  | Finite x, Finite y => Qeq_bool x y
  | PosInf, PosInf | NegInf, NegInf => true
  | _, _ => false
  end.

(** [Math.max] and [Math.min]: [NaN] as soon as one argument is. *)
Definition nmax (a b : number) : number :=
  match a, b with
  | NaN, _ | _, NaN => NaN
  | _, _ => if nleb a b then b else a
  end.

Definition nmin (a b : number) : number :=
  match a, b with
  | NaN, _ | _, NaN => NaN
  | _, _ => if nleb a b then a else b
  end.

(** [Math.pow(x, 2)]. *)
Definition npow2 (a : number) : number := nmul a a.

(** Truthiness of a number: everything but [0] and [NaN]. *)
Definition truthy (a : number) : bool :=
  match a with
  | Finite x => negb (Qeq_bool x 0)
  | PosInf | NegInf => true
  | NaN => false
  end.

(** [a || d] on numbers. *)
Definition nor (a d : number) : number := if truthy a then a else d.

Definition is_finite (a : number) : bool :=
  match a with Finite _ => true | _ => false end.

Infix "+" := nadd : num_scope.
Infix "-" := nsub : num_scope.
Infix "*" := nmul : num_scope.
Infix "/" := ndiv : num_scope.
Infix "<?" := nltb (at level 70) : num_scope.
Infix "<=?" := nleb (at level 70) : num_scope.
Infix ">?" := ngtb (at level 70) : num_scope.
Infix ">=?" := ngeb (at level 70) : num_scope.
Infix "===" := neqb (at level 70) : num_scope.

(** [Object.values(m).reduce((sum, v) => sum + v, 0)]. *)
Definition nsum (l : list number) : number :=
  fold_left nadd l (Finite 0).

(** [JSON.parse(JSON.stringify(x))] on a number: a non-finite number is
    written as [null], and every later arithmetic use reads [null] as 0. *)
Definition json_number (a : number) : number :=
  match a with
  | Finite x => Finite x
  | _ => Finite 0
  end.

(** The value a relation asserts of two numbers: equal as rationals. *)
Definition num_eq (a b : number) : Prop :=
  match a, b with
  | Finite x, Finite y => x == y
  | PosInf, PosInf | NegInf, NegInf | NaN, NaN => True
  | _, _ => False
  end.

(* ================================================================= *)
(** ** Data model *)

Record Indicator : Type := mkIndicator {
  projectName : string;
  matchScore : number;
  expenditures : number;
  value : option number;       (* number | null *)
  benchmark : option number;   (* number | null *)
  performanceGap : number
}.

Record FSFVIComponent : Type := mkComponent {
  id : string;
  name : string;
  indicators : list Indicator;
  totalExpenditures : number;
  averagePerformanceGap : number;
  sensitivityParameter : option number;
  weight : option number;
  vulnerability : option number
}.

Record FSFVIData : Type := mkData {
  subsectors : list (string * FSFVIComponent);
  totalBudget : number
}.

Record ContextualFactors : Type := mkFactors {
  climateEmergency : option bool;
  foodCrisis : option bool;
  nutritionCrisis : option bool;
  marketDevelopment : option bool
}.

Record GapCalculation : Type := mkGapCalculation {
  useWeightedAverage : option bool;
  trimOutliers : option bool;
  capMaxGap : option number;
  usePercentileCapping : option bool;
  percentileThreshold : option number;
  perSubsectorCaps : option (list (string * number))
}.

Record FSFVIConfig : Type := mkConfig {
  policyPriorities : option (list (string * number));
  contextualFactors : option ContextualFactors;
  gapCalculation : option GapCalculation;
  metricPreference : option (list (string * bool))
}.

(** Reading a key of an object. *)
Fixpoint lookup {A : Type} (k : string) (m : list (string * A)) : option A :=
  match m with
  | [] => None
  | (k', v) :: m' => if String.eqb k' k then Some v else lookup k m'
  end.

(** [m[k]] in an arithmetic position: a missing key reads [undefined],
    which arithmetic turns into [NaN]. *)
Definition get (m : list (string * number)) (k : string) : number :=
  match lookup k m with
  | Some v => v
  | None => NaN
  end.


(** [o?.f ?? d] and [o?.f] as a condition. *)
Definition opt_or {A : Type} (o : option A) (d : A) : A :=
  match o with Some a => a | None => d end.

Definition opt_field {A B : Type} (o : option A) (f : A -> option B) : option B :=
  match o with Some a => f a | None => None end.

(* ================================================================= *)
(** ** Algorithm 1: performance gap *)

Section Gap.
Local Open Scope num_scope.

Definition calculatePerformanceGap
  (value benchmark : option number) (preferHigher : bool) : number :=
  match value, benchmark with
  | Some value, Some benchmark =>
      if value === 0 then
        if benchmark === 0 then 0
        else if preferHigher then 5.0 else 0
      else if (value <? 0) && (benchmark <? 0) then
        let absValue := nabs value in
        let absBenchmark := nabs benchmark in
        if preferHigher then
          if absValue >? absBenchmark then 0
          else (absValue - absBenchmark) / absValue
        else
          if absValue <? absBenchmark then 0
          else (absBenchmark - absValue) / absValue
      else if preferHigher then
        if value >=? benchmark then 0
        else (benchmark - value) / nabs value
      else
        if value <=? benchmark then 0
        else (value - benchmark) / nabs value
  | _, _ => 0
  end.

End Gap.

(* ================================================================= *)
(** ** Component gap aggregation *)

Section Aggregation.
Local Open Scope num_scope.

Definition of_nat (n : nat) : number := Finite (inject_Z (Z.of_nat n)).

(** [Math.floor]. *)
Definition nfloor (a : number) : number :=
  match a with
  | Finite x => Finite (inject_Z (Qfloor x))
  | _ => a
  end.

(** Array index denoted by a number known to be an integer in range. *)
Definition index_of (a : number) : nat :=
  match a with
  | Finite x => Z.to_nat (Qfloor x)
  | _ => O
  end.

Definition set_performanceGap (i : Indicator) (g : number) : Indicator :=
  mkIndicator (projectName i) (matchScore i) (expenditures i)
              (value i) (benchmark i) g.

(** [arr.sort((a, b) => a.performanceGap - b.performanceGap)]: the sort
    is stable, and a comparator result that is not positive (negative,
    zero or [NaN]) leaves the earlier element first. *)
Fixpoint insert_by_gap (x : Indicator) (l : list Indicator) : list Indicator :=
  match l with
  | [] => [x]
  | y :: l' =>
      if (performanceGap x - performanceGap y) >? 0
      then y :: insert_by_gap x l'
      else x :: y :: l'
  end.

Definition sort_by_gap (l : list Indicator) : list Indicator :=
  fold_right insert_by_gap [] l.

(** [arr.slice(start, stop)] for [0 <= start] and [0 <= stop]. *)
Definition slice {A : Type} (start stop : nat) (l : list A) : list A :=
  firstn (stop - start) (skipn start l).

(** [{ ...options, trimOutliers: false }]. *)
Definition without_trimming (options : option GapCalculation) : option GapCalculation :=
  Some (mkGapCalculation
          (opt_field options useWeightedAverage)
          (Some false)
          (opt_field options capMaxGap)
          (opt_field options usePercentileCapping)
          (opt_field options percentileThreshold)
          (opt_field options perSubsectorCaps)).

(** The cap in force before percentile capping: the per-subsector cap if
    the id is a non-empty string and the table holds a truthy value for
    it, else [options?.capMaxGap ?? 8.0]. *)
Definition configuredCap (options : option GapCalculation)
  (subsectorId : option string) : number :=
  let capMaxGap := opt_or (opt_field options capMaxGap) (Finite 8.0) in
  match subsectorId, opt_field options perSubsectorCaps with
  | Some sid, Some caps =>
      if negb (String.eqb sid EmptyString) then
        match lookup sid caps with
        | Some c => if truthy c then c else capMaxGap
        | None => capMaxGap
        end
      else capMaxGap
  | _, _ => capMaxGap
  end.

Definition validIndicators (indicators : list Indicator) : list Indicator :=
  filter (fun i => performanceGap i >=? 0) indicators.

(** The cap after the optional percentile step. *)
Definition effectiveCap (options : option GapCalculation)
  (subsectorId : option string) (valid : list Indicator) : number :=
  let capMaxGap := configuredCap options subsectorId in
  if opt_or (opt_field options usePercentileCapping) false
     && (3 <=? length valid)%nat then
    let percentileThreshold :=
      opt_or (opt_field options percentileThreshold) (Finite 95) in
    let sortedGaps := map performanceGap (sort_by_gap valid) in
    let thresholdIndex :=
      nfloor (of_nat (length sortedGaps) * percentileThreshold / 100) in
    if (thresholdIndex >? 0) && (thresholdIndex <? of_nat (length sortedGaps))
    then nth (index_of thresholdIndex) sortedGaps NaN
    else capMaxGap
  else capMaxGap.

Definition cappedIndicators (cap : number) (valid : list Indicator) : list Indicator :=
  map (fun i => set_performanceGap i (nmin (performanceGap i) cap)) valid.

(** [Math.floor(n * 0.1)] for an array length [n]. *)
Definition trimCount (n : nat) : nat := (n / 10)%nat.

Definition trimmedIndicators (capped : list Indicator) : list Indicator :=
  let sorted := sort_by_gap capped in
  slice (trimCount (length sorted))
        (length sorted - trimCount (length sorted)) sorted.

Definition weightedMean (capped : list Indicator) : number :=
  let totalWeight := nsum (map (fun i => nor (matchScore i) 1) capped) in
  let weightedSum :=
    nsum (map (fun i => performanceGap i * nor (matchScore i) 1) capped) in
  if totalWeight >? 0 then weightedSum / totalWeight else 0.

Definition simpleMean (capped : list Indicator) : number :=
  nsum (map performanceGap capped) / of_nat (length capped).

(** The function calls itself with trimming switched off; [fuel] bounds
    the depth of these calls and [None] means that it ran out. *)
Fixpoint calculateComponentAverageGap_rec (fuel : nat)
  (indicators : list Indicator) (options : option GapCalculation)
  (subsectorId : option string) : option number :=
  match fuel with
  | O => None
  | S fuel' =>
      let useWeightedAverage := opt_or (opt_field options useWeightedAverage) false in
      let trimOutliers := opt_or (opt_field options trimOutliers) true in
      let valid := validIndicators indicators in
      if (length valid =? 0)%nat then Some (Finite 0)
      else
        let capMaxGap := effectiveCap options subsectorId valid in
        let capped := cappedIndicators capMaxGap valid in
        if trimOutliers && (5 <? length capped)%nat then
          let trimmed := trimmedIndicators capped in
          if (length trimmed =? 0)%nat then
            calculateComponentAverageGap_rec fuel' indicators
              (without_trimming options) subsectorId
          else
            calculateComponentAverageGap_rec fuel' trimmed
              (without_trimming options) subsectorId
        else if useWeightedAverage then Some (weightedMean capped)
        else Some (simpleMean capped)
  end.

(** Two levels are enough (see [calculateComponentAverageGap_total]); the
    default is never used. *)
Definition calculateComponentAverageGap (indicators : list Indicator)
  (options : option GapCalculation) (subsectorId : option string) : number :=
  opt_or (calculateComponentAverageGap_rec 2 indicators options subsectorId) NaN.

End Aggregation.

(* ================================================================= *)
(** ** Preprocessing *)

Section Preprocess.
Local Open Scope num_scope.

Definition defaultMetricPreferences : list (string * bool) :=
  [ ("Food availability", true);
    ("Food security", true);
    ("Production systems and input supply", true);
    ("Processing and packaging", true);
    ("Retail and marketing", true);
    ("Nutritional status", true);
    ("Environmental impacts", false);
    ("Environment and climate change", false);
    ("Resilience", true);
    ("Storage and distribution", true) ]%string.

(** [{ ...defaultMetricPreferences, ...(options?.metricPreference || {}) }[key]],
    defaulting to [true] when the key is in neither. *)
Definition preferHigherFor (metricPreference : option (list (string * bool)))
  (key : string) : bool :=
  match lookup key (opt_or metricPreference []) with
  | Some b => b
  | None => opt_or (lookup key defaultMetricPreferences) true
  end.

Definition processIndicator (preferHigher : bool) (indicator : Indicator) : Indicator :=
  if (performanceGap indicator >=? 0) && (performanceGap indicator <? PosInf)
  then indicator
  else set_performanceGap indicator
         (calculatePerformanceGap (value indicator) (benchmark indicator) preferHigher).

Definition preprocessSubsector (gapCalculation : option GapCalculation)
  (metricPreference : option (list (string * bool)))
  (key : string) (subsector : FSFVIComponent) : FSFVIComponent :=
  let preferHigher := preferHigherFor metricPreference key in
  let processedIndicators := map (processIndicator preferHigher) (indicators subsector) in
  let averagePerformanceGap :=
    calculateComponentAverageGap processedIndicators gapCalculation (Some key) in
  mkComponent (id subsector) (name subsector) processedIndicators
              (totalExpenditures subsector) averagePerformanceGap
              (sensitivityParameter subsector) (weight subsector)
              (vulnerability subsector).

Definition preprocessData (data : FSFVIData)
  (gapCalculation : option GapCalculation)
  (metricPreference : option (list (string * bool))) : FSFVIData :=
  mkData
    (map (fun '(key, subsector) =>
            (key, preprocessSubsector gapCalculation metricPreference key subsector))
         (subsectors data))
    (totalBudget data).

End Preprocess.

(* ================================================================= *)
(** ** Algorithm 2: component vulnerability *)

Section Vulnerability.
Local Open Scope num_scope.

Definition calculateComponentVulnerability
  (performanceGap financialAllocation sensitivityParameter : number) : number :=
  let allocation := nmax 0 financialAllocation in
  performanceGap * (1 / (1 + sensitivityParameter * allocation)).

End Vulnerability.

(* ================================================================= *)
(** ** Deep copies *)

(** [JSON.parse(JSON.stringify(x))]: strings and finite numbers come back
    as they are, an absent optional field stays absent, and a non-finite
    number comes back as [null]. *)
Definition json_nullable (a : option number) : option number :=
  match a with
  | Some (Finite x) => Some (Finite x)
  | _ => None
  end.

Definition json_indicator (i : Indicator) : Indicator :=
  mkIndicator (projectName i) (json_number (matchScore i))
              (json_number (expenditures i))
              (json_nullable (value i)) (json_nullable (benchmark i))
              (json_number (performanceGap i)).

Definition json_component (c : FSFVIComponent) : FSFVIComponent :=
  mkComponent (id c) (name c) (map json_indicator (indicators c))
              (json_number (totalExpenditures c))
              (json_number (averagePerformanceGap c))
              (option_map json_number (sensitivityParameter c))
              (option_map json_number (weight c))
              (option_map json_number (vulnerability c)).

Definition json_subsectors (s : list (string * FSFVIComponent))
  : list (string * FSFVIComponent) :=
  map (fun '(key, c) => (key, json_component c)) s.

(* ================================================================= *)
(** ** Sensitivity parameters *)

Section Sensitivity.
Local Open Scope num_scope.

Definition baselineSensitivity : list (string * number) :=
  [ ("Food availability", Finite 0.70);
    ("Storage and distribution", Finite 0.65);
    ("Processing and packaging", Finite 0.60);
    ("Retail and marketing", Finite 0.60);
    ("Production systems and input supply", Finite 0.50);
    ("Nutritional status", Finite 0.45);
    ("Food security", Finite 0.40);
    ("Resilience", Finite 0.30);
    ("Environmental impacts", Finite 0.25);
    ("Environment and climate change", Finite 0.20) ]%string.

Definition defaultSensitivity : number := Finite 0.40.
Definition complexityPenalty : number := Finite 0.15.
Definition scaleBonus : number := Finite 0.10.
Definition lagPenalty : number := Finite 0.20.

(** [table[key] || d] for a table of numbers. *)
Definition table_or (table : list (string * number)) (key : string) (d : number) : number :=
  match lookup key table with
  | Some v => nor v d
  | None => d
  end.

Definition estimateSensitivity (key : string) (subsector : FSFVIComponent) : number :=
  let estimatedParameter := table_or baselineSensitivity key defaultSensitivity in
  let estimatedParameter :=
    if (10 <? length (indicators subsector))%nat
    then estimatedParameter
         - complexityPenalty * (of_nat (length (indicators subsector)) / 20)
    else estimatedParameter in
  let normalizedExpenditure := totalExpenditures subsector / 100 in
  let estimatedParameter :=
    if normalizedExpenditure >? 0.5
    then estimatedParameter + scaleBonus * nmin normalizedExpenditure 1.0
    else estimatedParameter in
  let estimatedParameter :=
    if averagePerformanceGap subsector >? 1.0
    then estimatedParameter
         - lagPenalty * nmin (averagePerformanceGap subsector / 3) 1.0
    else estimatedParameter in
  nmax 0.1 (nmin 0.8 estimatedParameter).

Definition set_sensitivityParameter (c : FSFVIComponent) (s : number) : FSFVIComponent :=
  mkComponent (id c) (name c) (indicators c) (totalExpenditures c)
              (averagePerformanceGap c) (Some s) (weight c) (vulnerability c).

Definition estimateSensitivityParameters (subsectors : list (string * FSFVIComponent))
  : list (string * FSFVIComponent) :=
  map (fun '(key, subsector) =>
         (key, set_sensitivityParameter subsector (estimateSensitivity key subsector)))
      (json_subsectors subsectors).

End Sensitivity.

(* ================================================================= *)
(** ** Component weights *)

Section Weights.
Local Open Scope num_scope.

Definition baseWeights : list (string * number) :=
  [ ("Food availability", Finite 0.18);
    ("Food security", Finite 0.15);
    ("Resilience", Finite 0.12);
    ("Environment and climate change", Finite 0.10);
    ("Production systems and input supply", Finite 0.10);
    ("Storage and distribution", Finite 0.09);
    ("Processing and packaging", Finite 0.07);
    ("Retail and marketing", Finite 0.07);
    ("Environmental impacts", Finite 0.06);
    ("Nutritional status", Finite 0.06) ]%string.

Definition defaultWeight : number := Finite 0.025.

Definition climateComponents : list string :=
  [ "Environment and climate change"; "Environmental impacts"; "Resilience" ]%string.
Definition foodCrisisComponents : list string :=
  [ "Food availability"; "Food security"; "Storage and distribution" ]%string.
Definition nutritionComponents : list string :=
  [ "Nutritional status"; "Food security" ]%string.
Definition marketComponents : list string :=
  [ "Retail and marketing"; "Processing and packaging"; "Storage and distribution" ]%string.

(** [if (m[key] !== undefined) m[key] *= factor]. *)
Definition scale_key (key : string) (factor : number) (m : list (string * number))
  : list (string * number) :=
  map (fun '(k, w) => if String.eqb k key then (k, w * factor) else (k, w)) m.

(** [components.forEach(component => ... workingWeights[component] *= factor)]. *)
Definition boost (components : list string) (factor : number)
  (m : list (string * number)) : list (string * number) :=
  fold_left (fun m component => scale_key component factor m) components m.

Definition initialWeights (subsectors : list (string * FSFVIComponent))
  : list (string * number) :=
  map (fun '(key, _) => (key, table_or baseWeights key defaultWeight)) subsectors.

Definition applyPolicyPriorities (policyPriorities : option (list (string * number)))
  (workingWeights : list (string * number)) : list (string * number) :=
  match policyPriorities with
  | Some priorities =>
      fold_left (fun m '(key, p) => scale_key key p m) priorities workingWeights
  | None => workingWeights
  end.

Definition flag (b : option bool) : bool := opt_or b false.

Definition applyContextualFactors (contextualFactors : option ContextualFactors)
  (workingWeights : list (string * number)) : list (string * number) :=
  match contextualFactors with
  | Some factors =>
      let w := workingWeights in
      let w := if flag (climateEmergency factors)
               then boost climateComponents 1.5 w else w in
      let w := if flag (foodCrisis factors)
               then boost foodCrisisComponents 1.8 w else w in
      let w := if flag (nutritionCrisis factors)
               then boost nutritionComponents 1.7 w else w in
      let w := if flag (marketDevelopment factors)
               then boost marketComponents 1.4 w else w in
      w
  | None => workingWeights
  end.

(** The working weights just before normalisation. *)
Definition workingWeights (subsectors : list (string * FSFVIComponent))
  (policyPriorities : option (list (string * number)))
  (contextualFactors : option ContextualFactors) : list (string * number) :=
  applyContextualFactors contextualFactors
    (applyPolicyPriorities policyPriorities (initialWeights subsectors)).

Definition set_weight (c : FSFVIComponent) (w : number) : FSFVIComponent :=
  mkComponent (id c) (name c) (indicators c) (totalExpenditures c)
              (averagePerformanceGap c) (sensitivityParameter c) (Some w)
              (vulnerability c).

(** [config] is given by its two optional fields. *)
Definition assignComponentWeights (subsectors : list (string * FSFVIComponent))
  (policyPriorities : option (list (string * number)))
  (contextualFactors : option ContextualFactors)
  : list (string * FSFVIComponent) :=
  let updatedSubsectors := json_subsectors subsectors in
  let workingWeights := workingWeights updatedSubsectors policyPriorities contextualFactors in
  let totalWeight := nsum (map snd workingWeights) in
  map (fun '(key, c) => (key, set_weight c (get workingWeights key / totalWeight)))
      updatedSubsectors.

End Weights.

(* ================================================================= *)
(** ** Vulnerabilities and Algorithm 3: the system index *)

Section Index.
Local Open Scope num_scope.

Definition set_vulnerability (c : FSFVIComponent) (v : number) : FSFVIComponent :=
  mkComponent (id c) (name c) (indicators c) (totalExpenditures c)
              (averagePerformanceGap c) (sensitivityParameter c) (weight c)
              (Some v).

(** [x!] read in arithmetic: [undefined] becomes [NaN]. *)
Definition the (x : option number) : number := opt_or x NaN.

Definition componentVulnerability (c : FSFVIComponent) : number :=
  calculateComponentVulnerability (averagePerformanceGap c) (totalExpenditures c)
                                  (the (sensitivityParameter c)).

Definition calculateVulnerabilities (data : FSFVIData) (config : option FSFVIConfig)
  : FSFVIData :=
  let dataWithGaps :=
    preprocessData data (opt_field config gapCalculation)
                        (opt_field config metricPreference) in
  let subsectorsWithSensitivity :=
    estimateSensitivityParameters (subsectors dataWithGaps) in
  let subsectorsWithWeights :=
    assignComponentWeights subsectorsWithSensitivity
      (opt_field config policyPriorities) (opt_field config contextualFactors) in
  mkData
    (map (fun '(key, subsector) =>
            (key, set_vulnerability subsector (componentVulnerability subsector)))
         subsectorsWithWeights)
    (totalBudget data).

Definition calculateFSFVI (data : FSFVIData) : number :=
  fold_left
    (fun fsfviValue '(_, subsector) =>
       match weight subsector, vulnerability subsector with
       | Some w, Some v => fsfviValue + w * v
       | _, _ => fsfviValue
       end)
    (subsectors data) (Finite 0).

Record FSFVIResult : Type := mkResult {
  fsfviValue : number;
  processedData : FSFVIData;
  configurationUsed : FSFVIConfig
}.

(** The configuration with its defaults filled in. *)
Definition effectiveConfig (config : option FSFVIConfig) : FSFVIConfig :=
  let given := opt_field config gapCalculation in
  mkConfig
    (Some (opt_or (opt_field config policyPriorities) []))
    (Some (opt_or (opt_field config contextualFactors)
                  (mkFactors None None None None)))
    (Some (mkGapCalculation
             (Some (opt_or (opt_field given useWeightedAverage) false))
             (Some (opt_or (opt_field given trimOutliers) true))
             (Some (opt_or (opt_field given capMaxGap) (Finite 5.0)))
             None None None))
    (Some (opt_or (opt_field config metricPreference) [])).

(** The per-sector diagnostics are derived from the result and left out. *)
Definition computeFSFVI (data : FSFVIData) (config : option FSFVIConfig)
  : FSFVIResult :=
  let effectiveConfig := effectiveConfig config in
  let preprocessedData :=
    preprocessData data (gapCalculation effectiveConfig)
                        (metricPreference effectiveConfig) in
  let dataWithVulnerabilities :=
    calculateVulnerabilities preprocessedData (Some effectiveConfig) in
  mkResult (calculateFSFVI dataWithVulnerabilities)
           dataWithVulnerabilities effectiveConfig.

End Index.

(* ================================================================= *)
(** ** Algorithm 4: the allocation optimizer *)

Section Optimizer.
Local Open Scope num_scope.

Definition maxIterations : nat := 100.
Definition initialLearningRate : number := Finite 0.1.
Definition minImprovement : number := Finite 0.0001.

Record OptimizationResult : Type := mkOptimizationResult {
  originalFSFVI : number;
  optimizedFSFVI : number;
  originalAllocations : list (string * number);
  optimizedAllocations : list (string * number)
}.

(** The variables that the loop assigns. *)
Record LoopState : Type := mkLoopState {
  currentAllocations : list (string * number);
  workingData : FSFVIData;
  currentFSFVI : number;
  prevFSFVI : number;
  iteration : nat;
  learningRate : number
}.

(** What the loop reads and never assigns. *)
Record Constraints : Type := mkConstraints {
  budget : number;                           (* totalBudget *)
  componentIds : list string;
  minAllocations : list (string * number);
  maxAllocations : list (string * number)
}.

Definition minAllocation (original : number) : number :=
  nmax (original * 0.01) 0.1.

Definition maxAllocation (totalBudget original : number) : number :=
  nmin (original * 2) (totalBudget * 0.4).

Definition gradient (component : FSFVIComponent) (currentAllocation : number) : number :=
  let performanceGap := averagePerformanceGap component in
  let sensitivityParam := the (sensitivityParameter component) in
  let weight := the (weight component) in
  Finite (-1) * performanceGap * sensitivityParam
    / npow2 (1 + sensitivityParam * currentAllocation) * weight.

Definition gradients (workingData : FSFVIData)
  (currentAllocations : list (string * number)) : list (string * number) :=
  map (fun '(id, component) => (id, gradient component (get currentAllocations id)))
      (subsectors workingData).

Definition totalGradientMagnitude (gradients : list (string * number)) : number :=
  nsum (map nabs (map snd gradients)).

(** The proposal for one component, clamped to its bounds. *)
Definition tentativeAllocation (c : Constraints) (learningRate totalMagnitude : number)
  (gradients currentAllocations : list (string * number)) (id : string) : number :=
  let normalizedGradient := get gradients id / totalMagnitude in
  let adjustmentFactor := learningRate * normalizedGradient in
  let newAllocation := get currentAllocations id - adjustmentFactor * budget c in
  let newAllocation := nmax newAllocation (get (minAllocations c) id) in
  let newAllocation := nmin newAllocation (get (maxAllocations c) id) in
  newAllocation.

Definition tentativeAllocations (c : Constraints) (learningRate totalMagnitude : number)
  (gradients currentAllocations : list (string * number)) : list (string * number) :=
  map (fun id => (id, tentativeAllocation c learningRate totalMagnitude
                        gradients currentAllocations id))
      (componentIds c).

(** Rescaling to the budget, with the minimum applied again. *)
Definition scaledAllocations (c : Constraints)
  (tentativeAllocations : list (string * number)) : list (string * number) :=
  let tentativeTotalAllocation := nsum (map snd tentativeAllocations) in
  let scaleFactor := budget c / tentativeTotalAllocation in
  map (fun id =>
         let a := get tentativeAllocations id * scaleFactor in
         (id, if a <? get (minAllocations c) id then get (minAllocations c) id else a))
      (componentIds c).

Definition adjustable (c : Constraints) (currentAllocations : list (string * number))
  (id : string) : bool :=
  (get currentAllocations id >? get (minAllocations c) id)
  && (get currentAllocations id <? get (maxAllocations c) id).

(** Spreading what is left of the budget over the components strictly
    inside their bounds. *)
Definition redistributed (c : Constraints)
  (currentAllocations : list (string * number)) : list (string * number) :=
  let currentTotal := nsum (map snd currentAllocations) in
  let remainingBudget := budget c - currentTotal in
  if nabs remainingBudget >? 0.001 then
    let adjustableComponents :=
      filter (adjustable c currentAllocations) (componentIds c) in
    if (0 <? length adjustableComponents)%nat then
      let adjustmentPerComponent :=
        remainingBudget / of_nat (length adjustableComponents) in
      map (fun id =>
             (id, if adjustable c currentAllocations id
                  then get currentAllocations id + adjustmentPerComponent
                  else get currentAllocations id))
          (componentIds c)
    else currentAllocations
  else currentAllocations.

(** The allocations that one iteration computes. *)
Definition newAllocations (c : Constraints) (learningRate totalMagnitude : number)
  (gradients currentAllocations : list (string * number)) : list (string * number) :=
  redistributed c
    (scaledAllocations c
       (tentativeAllocations c learningRate totalMagnitude gradients currentAllocations)).

Definition set_allocation (c : FSFVIComponent) (a : number) : FSFVIComponent :=
  mkComponent (id c) (name c) (indicators c) a
              (averagePerformanceGap c) (sensitivityParameter c) (weight c)
              (vulnerability c).

Definition refreshVulnerability (c : FSFVIComponent) : FSFVIComponent :=
  set_vulnerability c (componentVulnerability c).

(** Writing the allocations into the working data, with the
    vulnerabilities that follow from them. *)
Definition withAllocations (workingData : FSFVIData)
  (currentAllocations : list (string * number)) : FSFVIData :=
  mkData
    (map (fun '(id, component) =>
            (id, refreshVulnerability
                   (set_allocation component (get currentAllocations id))))
         (subsectors workingData))
    (totalBudget workingData).

(** The body of the loop after [prevFSFVI = currentFSFVI; iteration++];
    [None] is the [break]. *)
Definition iterationBody (c : Constraints) (st : LoopState) : option LoopState :=
  let gradients := gradients (workingData st) (currentAllocations st) in
  let totalMagnitude := totalGradientMagnitude gradients in
  if totalMagnitude === 0 then None
  else
    let allocations :=
      newAllocations c (learningRate st) totalMagnitude gradients
                     (currentAllocations st) in
    let data := withAllocations (workingData st) allocations in
    let newFSFVI := calculateFSFVI data in
    if newFSFVI <? prevFSFVI st then
      Some (mkLoopState allocations data newFSFVI (prevFSFVI st)
                        (iteration st) (learningRate st * 1.1))
    else
      Some (mkLoopState allocations data (prevFSFVI st) (prevFSFVI st)
                        (iteration st) (learningRate st * 0.5)).

Definition loopCondition (st : LoopState) : bool :=
  (iteration st <? maxIterations)%nat
  && ((prevFSFVI st - currentFSFVI st) >? minImprovement).

Definition enterIteration (st : LoopState) : LoopState :=
  mkLoopState (currentAllocations st) (workingData st) (currentFSFVI st)
              (currentFSFVI st) (S (iteration st)) (learningRate st).

(** The [while] loop; [fuel] bounds the number of iterations run. *)
Fixpoint optimizationLoop (fuel : nat) (c : Constraints) (st : LoopState) : LoopState :=
  match fuel with
  | O => st
  | S fuel' =>
      if loopCondition st then
        match iterationBody c (enterIteration st) with
        | Some st' => optimizationLoop fuel' c st'
        | None => enterIteration st
        end
      else st
  end.

Definition allocationsOf (data : FSFVIData) : list (string * number) :=
  map (fun '(key, subsector) => (key, totalExpenditures subsector)) (subsectors data).

Definition constraintsOf (totalBudget : number) (processedData : FSFVIData) : Constraints :=
  let originalAllocations := allocationsOf processedData in
  let componentIds := map fst (subsectors processedData) in
  mkConstraints totalBudget componentIds
    (map (fun id => (id, minAllocation (get originalAllocations id))) componentIds)
    (map (fun id => (id, maxAllocation totalBudget (get originalAllocations id)))
         componentIds).

Definition initialState (result : FSFVIResult) : LoopState :=
  mkLoopState (allocationsOf (processedData result))
              (mkData (json_subsectors (subsectors (processedData result)))
                      (json_number (totalBudget (processedData result))))
              (fsfviValue result) PosInf O initialLearningRate.

(** The state in which the loop is left. *)
Definition finalState (data : FSFVIData) : LoopState :=
  let result := computeFSFVI data None in
  optimizationLoop maxIterations
    (constraintsOf (totalBudget data) (processedData result))
    (initialState result).

(** The final rescaling to the budget, in exact arithmetic
    ([Binary64.finalAllocations] is the same step with the rounding of
    the code). *)
Definition finalAllocations (totalBudget : number) (componentIds : list string)
  (currentAllocations : list (string * number)) : list (string * number) :=
  let finalTotal := nsum (map snd currentAllocations) in
  let finalScaleFactor := totalBudget / finalTotal in
  map (fun id => (id, get currentAllocations id * finalScaleFactor)) componentIds.

Definition optimizeResourceAllocation (data : FSFVIData) : OptimizationResult :=
  let result := computeFSFVI data None in
  let st := finalState data in
  let componentIds := map fst (subsectors (processedData result)) in
  let allocations :=
    finalAllocations (totalBudget data) componentIds (currentAllocations st) in
  mkOptimizationResult
    (fsfviValue result)
    (calculateFSFVI (withAllocations (workingData st) allocations))
    (allocationsOf (processedData result))
    allocations.

(* ================================================================= *)
(** ** Efficiency metrics *)

Record EfficiencyMetrics : Type := mkEfficiency {
  absoluteGap : number;
  gapRatio : number;
  efficiencyIndex : number
}.

Definition calculateEfficiencyMetrics (originalFSFVI optimizedFSFVI : number)
  : EfficiencyMetrics :=
  let absoluteGap := originalFSFVI - optimizedFSFVI in
  mkEfficiency absoluteGap (absoluteGap / optimizedFSFVI)
               (optimizedFSFVI / originalFSFVI).

End Optimizer.

(* ================================================================= *)
(** ** The final rescaling in binary64 *)

(** The gradient, the test of the [break] and lines 849 to 853 once
    more, on the binary64 numbers of the code instead of exact
    rationals: every sum, quotient and product is rounded to the
    nearest binary64 number. *)
Module Binary64.
Import PrimFloat.

(** [Math.pow(x, 2)] is taken as [x * x]. *)
Definition gradient (performanceGap sensitivityParam weight currentAllocation : float)
  : float :=
  let base := add one (mul sensitivityParam currentAllocation) in
  mul (div (mul (mul (opp one) performanceGap) sensitivityParam) (mul base base))
      weight.

Definition totalGradientMagnitude (gradients : list float) : float :=
  fold_left (fun sum grad => add sum (abs grad)) gradients zero.

Definition get (m : list (string * float)) (k : string) : float :=
  match lookup k m with
  | Some v => v
  | None => nan
  end.

(** [Object.values(m).reduce((sum, val) => sum + val, 0)]. *)
Definition sum (l : list float) : float := fold_left add l zero.

Definition finalAllocations (totalBudget : float) (componentIds : list string)
  (currentAllocations : list (string * float)) : list (string * float) :=
  let finalTotal := sum (map snd currentAllocations) in
  let finalScaleFactor := div totalBudget finalTotal in
  map (fun id => (id, mul (get currentAllocations id) finalScaleFactor)) componentIds.

(** The rational that a finite binary64 number is. *)
Definition exact (x : float) : Q :=
  match FloatOps.Prim2SF x with
  | SpecFloat.S754_finite s m e =>
      let v := inject_Z (Zpos m) * Qpower 2 e in
      if s then - v else v
  | _ => 0
  end.

End Binary64.


(* ================================================================= *)
(** ** Diagnostics of [computeFSFVI] *)

Module Contribution.
Record t : Type := mk {
  weight : number;
  vulnerability : number;
  weightedContribution : number;
  percentageOfTotal : number
}.
End Contribution.

Section Diagnostics.
Local Open Scope num_scope.



End Diagnostics.

(* ================================================================= *)
(** ** The UI adapter: [runFSFVIComputation] *)

Module Metric.
Record t : Type := mk {
  id : string;
  name : string;
  performanceGap : number;
  vulnerability : number;
  weightedVulnerability : number;
  allocation : number;
  weight : number
}.
End Metric.

Module Computation.
Record t : Type := mk {
  fsfviValue : number;
  componentMetrics : list Metric.t
}.
End Computation.

Section Adapter.
Local Open Scope num_scope.

(** [{ ...subsector, id }]. *)
Definition set_id (c : FSFVIComponent) (id : string) : FSFVIComponent :=
  mkComponent id (name c) (indicators c) (totalExpenditures c)
              (averagePerformanceGap c) (sensitivityParameter c) (weight c)
              (vulnerability c).

Definition withIds (subsectors : list (string * FSFVIComponent))
  : list (string * FSFVIComponent) :=
  map (fun '(id, subsector) => (id, set_id subsector id)) subsectors.

(** [if (subsectorsWithWeights[id])
       subsectorsWithWeights[id].totalExpenditures = customAllocations[id]]. *)
Definition assign_allocation (id : string) (a : number)
  (subsectors : list (string * FSFVIComponent)) : list (string * FSFVIComponent) :=
  map (fun '(k, c) => if String.eqb k id then (k, set_allocation c a) else (k, c))
      subsectors.

Definition applyCustomAllocations (customAllocations : option (list (string * number)))
  (subsectors : list (string * FSFVIComponent)) : list (string * FSFVIComponent) :=
  match customAllocations with
  | Some allocations =>
      fold_left (fun s '(id, a) => assign_allocation id a s) allocations subsectors
  | None => subsectors
  end.

(** The vulnerability as the adapter computes it: the allocation is not
    clamped at 0, and a falsy sensitivity is replaced by 0.4. *)
Definition adapterVulnerability (subsector : FSFVIComponent) : number :=
  let performanceGap := averagePerformanceGap subsector in
  let allocation := totalExpenditures subsector in
  let sensitivityParam := nor (the (sensitivityParameter subsector)) 0.4 in
  let allocationEffect := 1 / (1 + sensitivityParam * allocation) in
  performanceGap * allocationEffect.

(** One entry of [componentMetrics]; a gap or allocation that the deep
    copies turned into [null] is listed as 0. *)
Definition componentMetric (id : string) (subsector : FSFVIComponent) : Metric.t :=
  let weight := nor (the (weight subsector)) 0 in
  let vulnerability := nor (the (vulnerability subsector)) 0 in
  let weightedVulnerability := weight * vulnerability in
  Metric.mk id (name subsector) (averagePerformanceGap subsector)
            vulnerability weightedVulnerability
            (totalExpenditures subsector) weight.

(** The subsectors on which the index is computed. *)
Definition adapterSubsectors (kenyaData : list (string * FSFVIComponent))
  (customAllocations : option (list (string * number)))
  (config : option FSFVIConfig) : list (string * FSFVIComponent) :=
  let subsectorsWithSensitivity := estimateSensitivityParameters (withIds kenyaData) in
  let subsectorsWithWeights :=
    assignComponentWeights subsectorsWithSensitivity None
                           (opt_field config contextualFactors) in
  let subsectorsWithWeights :=
    applyCustomAllocations customAllocations subsectorsWithWeights in
  map (fun '(id, subsector) =>
         (id, set_vulnerability subsector (adapterVulnerability subsector)))
      subsectorsWithWeights.

Definition runFSFVIComputation (kenyaData : list (string * FSFVIComponent))
  (customAllocations : option (list (string * number)))
  (config : option FSFVIConfig) : Computation.t :=
  let totalBudget := nsum (map (fun p => totalExpenditures (snd p)) kenyaData) in
  let subsectorsWithWeights := adapterSubsectors kenyaData customAllocations config in
  let fsfviValue := calculateFSFVI (mkData subsectorsWithWeights totalBudget) in
  Computation.mk fsfviValue
    (map (fun '(id, subsector) => componentMetric id subsector) subsectorsWithWeights).

End Adapter.

(* ================================================================= *)
(** ** Vocabulary of the properties *)

(** Sum of rationals, and the rational behind a finite number. *)
Fixpoint Qsum (qs : list Q) : Q :=
  match qs with
  | [] => 0
  | q :: qs' => q + Qsum qs'
  end.


(** Finite numbers in lowest terms, for stating computed values. *)
Definition nred (a : number) : number :=
  match a with
  | Finite x => Finite (Qred x)
  | _ => a
  end.

Definition reduced (m : list (string * number)) : list (string * number) :=
  map (fun p => (fst p, nred (snd p))) m.

(** Closeness of two numbers within a tolerance; no non-finite number is
    close to anything. *)
Definition within (tolerance : Q) (a b : number) : Prop :=
  match a, b with
  | Finite x, Finite y => Qabs (x - y) <= tolerance
  | _, _ => False
  end.

Definition positive (a : number) : Prop := exists q, a = Finite q /\ 0 < q.




(** The weights that [assignComponentWeights] stores, in key order. *)
Definition assignedWeights (subsectors : list (string * FSFVIComponent)) : list number :=
  map (fun p => the (weight (snd p))) subsectors.

(** What the pipeline establishes for each component. *)
Definition pipelined (c : FSFVIComponent) : Prop :=
  exists g s w f,
    averagePerformanceGap c = Finite g /\ 0 <= g
    /\ sensitivityParameter c = Some (Finite s) /\ 0 < s
    /\ weight c = Some (Finite w) /\ 0 <= w
    /\ totalExpenditures c = Finite f.


(** One step of the sum in [calculateFSFVI]. *)
Definition indexStep (fsfviValue : number) (p : string * FSFVIComponent) : number :=
  match weight (snd p), vulnerability (snd p) with
  | Some w, Some v => nadd fsfviValue (nmul w v)
  | _, _ => fsfviValue
  end.




(** The order in which [sort_by_gap] leaves two indicators. *)
Definition gap_le (i j : Indicator) : Prop :=
  nleb (performanceGap i) (performanceGap j) = true.

(** Two entries with the same key, id, name, indicators and
    expenditures, and the same gap, sensitivity and weight where the
    flags ask for them. *)
Definition agree (gap sensitivity weighted : bool) (p q : string * FSFVIComponent) : Prop :=
  fst p = fst q
  /\ id (snd p) = id (snd q)
  /\ name (snd p) = name (snd q)
  /\ indicators (snd p) = indicators (snd q)
  /\ totalExpenditures (snd p) = totalExpenditures (snd q)
  /\ (gap = true -> averagePerformanceGap (snd p) = averagePerformanceGap (snd q))
  /\ (sensitivity = true -> sensitivityParameter (snd p) = sensitivityParameter (snd q))
  /\ (weighted = true -> weight (snd p) = weight (snd q)).

(** Two datasets with the same budget and, key by key, the same id,
    name, indicators and expenditures. *)
Definition sameInputs (d1 d2 : FSFVIData) : Prop :=
  totalBudget d1 = totalBudget d2
  /\ Forall2 (agree false false false) (subsectors d1) (subsectors d2).

(** A component that [calculateFSFVI] counts. *)
Definition counted (p : string * FSFVIComponent) : bool :=
  match weight (snd p), vulnerability (snd p) with
  | Some _, Some _ => true
  | _, _ => false
  end.

(** Replacing the four derived fields of every component. *)
Definition with_derived (a : number) (s w v : option number) (d : FSFVIData) : FSFVIData :=
  mkData (map (fun '(k, c) =>
                 (k, mkComponent (id c) (name c) (indicators c) (totalExpenditures c)
                                 a s w v))
              (subsectors d))
         (totalBudget d).






(** What a metric shows of a component besides its allocation and
    vulnerability. *)
Definition metricParameters (m : Metric.t) : string * string * number * number :=
  (Metric.id m, Metric.name m, Metric.performanceGap m, Metric.weight m).



(* ================================================================= *)
(** ** Sample datasets *)

(** An indicator that carries its gap, and a component made of such
    indicators, without sensitivity, weight or vulnerability yet. *)
Definition sample_indicator (gap : Q) : Indicator :=
  mkIndicator "project" (Finite 1) (Finite 0) None None (Finite gap).

Definition sample_component (key : string) (gaps : list Q) (allocation : Q)
  : string * FSFVIComponent :=
  (key, mkComponent key key (map sample_indicator gaps) (Finite allocation)
                    (Finite 0) None None None).

(** Three components whose allocations sum to the budget and lie within
    their bounds. *)
Definition three_components : FSFVIData :=
  mkData [ sample_component "A" [0.882] 8;
           sample_component "B" [0.578] 6;
           sample_component "C" [0.578] 6 ]
         (Finite 20).

(** Components without indicators have gap 0, hence gradient 0. *)
Definition two_components_without_gap : FSFVIData :=
  mkData [sample_component "X" [] 10; sample_component "Y" [] 30] (Finite 40).

Definition component_without_gap : FSFVIData :=
  mkData [sample_component "X" [] 10] (Finite 20).

(** A negative allocation, which the data model excludes. *)
Definition opposite_allocations : FSFVIData :=
  mkData [sample_component "A" [] 5; sample_component "B" [] (-5)] (Finite 10).



Definition underfunded_component : FSFVIData :=
  mkData [sample_component "X" [1] 10] (Finite 20).


(** Three components without indicators (gap 0, hence gradient 0) under
    a budget of 10^12, and their allocations and budget as binary64
    numbers. *)
Definition large_budget_components : FSFVIData :=
  mkData [sample_component "A" [] 7; sample_component "B" [] 9;
          sample_component "C" [] 13]
         (Finite 1000000000000).

Module Sample64.
Import PrimFloat.


Definition allocations : list (string * float) :=
  [ ("A"%string, 7%float); ("B"%string, 9%float); ("C"%string, 13%float) ].

(** The sensitivity 0.4 and the weight 0.025 / (0.025 + 0.025 + 0.025)
    that the pipeline gives each of the three components, and the
    gradients of the first iteration at gap 0. *)
Definition sensitivity : float := 0x1.999999999999ap-2%float.

Definition weight : float :=
  let w := 0x1.999999999999ap-6%float in
  div w (add (add (add zero w) w) w).

Definition gradients : list float :=
  map (fun p => Binary64.gradient zero sensitivity weight (snd p)) allocations.

End Sample64.

(* ================================================================= *)
(** * Properties *)

(* ================================================================= *)
(** ** Rationals and numbers *)

Lemma Qle_bool_spec (x y : Q) : BoolSpec (x <= y) (y < x) (Qle_bool x y).
Proof.
  destruct (Qle_bool x y) eqn:E; constructor.
  - now apply Qle_bool_iff.
  - apply Qnot_le_lt. intro H. apply Qle_bool_iff in H. congruence.
Qed.

Lemma Qeq_bool_spec (x y : Q) : BoolSpec (x == y) (~ x == y) (Qeq_bool x y).
Proof.
  destruct (Qeq_bool x y) eqn:E; constructor.
  - now apply Qeq_bool_iff.
  - now apply Qeq_bool_neq.
Qed.

Lemma Qabs_of_neg (x : Q) : x < 0 -> Qabs x == - x.
Proof. intro H. apply Qabs_neg. lra. Qed.

Lemma Qabs_of_nonneg (x : Q) : 0 <= x -> Qabs x == x.
Proof. apply Qabs_pos. Qed.

Lemma Qdiv_neg_pos (a b : Q) : a < 0 -> 0 < b -> a / b < 0.
Proof.
  intros Ha Hb. apply Qlt_shift_div_r; [exact Hb | lra].
Qed.

Lemma Qdiv_nonneg_pos (a b : Q) : 0 <= a -> 0 < b -> 0 <= a / b.
Proof.
  intros Ha Hb. apply Qle_shift_div_l; [exact Hb | lra].
Qed.

Lemma ndiv_finite (x y : Q) : ~ y == 0 -> ndiv (Finite x) (Finite y) = Finite (x / y).
Proof.
  intro H. unfold ndiv. destruct (Qeq_bool_spec y 0); [contradiction | reflexivity].
Qed.


Lemma nltb_finite (x y : Q) : nltb (Finite x) (Finite y) = true <-> x < y.
Proof.
  simpl. destruct (Qle_bool_spec y x); simpl; split; intros; try lra; congruence.
Qed.

Lemma nmax_finite (x y : Q) :
  exists z, nmax (Finite x) (Finite y) = Finite z /\ x <= z /\ y <= z /\ (z == x \/ z == y).
Proof.
  unfold nmax, nleb. destruct (Qle_bool_spec x y); eexists; (split; [reflexivity|]); lra.
Qed.

Lemma nmin_finite (x y : Q) :
  exists z, nmin (Finite x) (Finite y) = Finite z /\ z <= x /\ z <= y /\ (z == x \/ z == y).
Proof.
  unfold nmin, nleb. destruct (Qle_bool_spec x y); eexists; (split; [reflexivity|]); lra.
Qed.

(** Case analysis on every comparison of rationals in the goal. *)
Ltac qbool :=
  repeat (match goal with
          | |- context [Qle_bool ?a ?b] => destruct (Qle_bool_spec a b)
          | |- context [Qeq_bool ?a ?b] => destruct (Qeq_bool_spec a b)
          end; cbn [negb andb orb]).

(** Case analysis on the condition of the first conditional of the goal. *)
Ltac case_if :=
  match goal with
  | |- context [if ?b then _ else _] => destruct b eqn:?
  end.

(* ================================================================= *)
(** ** The performance gap *)


(** C1.  The gap is not always at least 0: when value and benchmark are
    both negative and the value is the higher (better) of the two under
    "higher is better", the branch on absolute magnitudes returns
    [(|value| - |benchmark|) / |value|], a negative number. *)
Theorem calculatePerformanceGap_negative (v b : Q) :
  b < v -> v < 0 ->
  exists g, calculatePerformanceGap (Some (Finite v)) (Some (Finite b)) true
            = Finite g /\ g < 0.
Proof.
  intros Hbv Hv.
  unfold calculatePerformanceGap, neqb, ngtb, nltb, nabs, nsub, nneg, nadd.
  destruct (Qeq_bool_spec v 0) as [H | _]; [lra |].
  destruct (Qle_bool_spec 0 v) as [H | _]; [lra |].
  destruct (Qle_bool_spec 0 b) as [H | _]; [lra |].
  simpl andb. cbv iota.
  pose proof (Qabs_of_neg v Hv) as Hav.
  pose proof (Qabs_of_neg b ltac:(lra)) as Hab.
  destruct (Qle_bool_spec (Qabs v) (Qabs b)) as [_ | H]; [| lra].
  simpl negb. cbv iota.
  rewrite ndiv_finite by lra.
  eexists; split; [reflexivity |].
  apply Qdiv_neg_pos; lra.
Qed.

Lemma calculatePerformanceGap_negative_witness :
  exists g, calculatePerformanceGap (Some (Finite (-1))) (Some (Finite (-2))) true
            = Finite g /\ g < 0.
Proof.
  apply (calculatePerformanceGap_negative (-1) (-2)); reflexivity.
Defined.

(** The same input evaluated, and its mirror image under "lower is
    better". *)
Example calculatePerformanceGap_negative_values :
  calculatePerformanceGap (Some (Finite (-1))) (Some (Finite (-2))) true = Finite (-1)
  /\ calculatePerformanceGap (Some (Finite (-2))) (Some (Finite (-1))) false
     = Finite (-1 # 2).
Proof. split; reflexivity. Qed.

(* ================================================================= *)
(** ** Component vulnerability *)

(** The discount [1 / (1 + s * a)] does not increase with [a]. *)
Lemma discount_nonincreasing (s a1 a2 : Q) :
  0 <= s -> 0 <= a1 -> a1 <= a2 -> 1 / (1 + s * a2) <= 1 / (1 + s * a1).
Proof.
  intros Hs Ha1 Ha.
  assert (Hsa1 : 0 <= s * a1) by (apply Qmult_le_0_compat; assumption).
  assert (Hsa : s * a1 <= s * a2).
  { rewrite (Qmult_comm s a1), (Qmult_comm s a2). apply Qmult_le_compat_r; assumption. }
  apply Qle_shift_div_l; [lra |].
  setoid_replace (1 / (1 + s * a2) * (1 + s * a1))
    with ((1 + s * a1) / (1 + s * a2)) by (field; lra).
  apply Qle_shift_div_r; lra.
Qed.

Lemma calculateComponentVulnerability_finite (gap f s : Q) :
  0 <= s ->
  exists a, nmax (Finite 0) (Finite f) = Finite a /\ 0 <= a /\ f <= a
            /\ (f <= 0 -> a == 0) /\ (0 <= f -> a == f)
            /\ calculateComponentVulnerability (Finite gap) (Finite f) (Finite s)
               = Finite (gap * (1 / (1 + s * a))).
Proof.
  intro Hs. unfold calculateComponentVulnerability.
  destruct (nmax_finite 0 f) as (a & Ha & H0 & Hf & Hor).
  exists a. rewrite Ha. repeat split; try assumption.
  - intro. lra.
  - intro. lra.
  - cbn [nmul nadd]. rewrite ndiv_finite; [reflexivity |].
    assert (0 <= s * a) by (apply Qmult_le_0_compat; assumption). lra.
Qed.

(** C8.  For a gap and a sensitivity that are at least 0 the
    vulnerability does not increase when the allocation increases;
    negative allocations count as 0. *)
Theorem calculateComponentVulnerability_nonincreasing (gap s f1 f2 : Q) :
  0 <= gap -> 0 <= s -> f1 <= f2 ->
  exists v1 v2,
    calculateComponentVulnerability (Finite gap) (Finite f1) (Finite s) = Finite v1
    /\ calculateComponentVulnerability (Finite gap) (Finite f2) (Finite s) = Finite v2
    /\ v2 <= v1.
Proof.
  intros Hgap Hs Hf.
  destruct (calculateComponentVulnerability_finite gap f1 s Hs)
    as (a1 & _ & Ha1 & Hf1 & Hz1 & Hp1 & E1).
  destruct (calculateComponentVulnerability_finite gap f2 s Hs)
    as (a2 & _ & Ha2 & Hf2 & Hz2 & Hp2 & E2).
  exists (gap * (1 / (1 + s * a1))), (gap * (1 / (1 + s * a2))).
  repeat split; try assumption.
  assert (Ha : a1 <= a2).
  { destruct (Qlt_le_dec f1 0) as [Hn | Hn].
    - rewrite (Hz1 ltac:(lra)). exact Ha2.
    - rewrite (Hp1 Hn), (Hp2 ltac:(lra)). exact Hf. }
  rewrite (Qmult_comm gap (1 / (1 + s * a2))), (Qmult_comm gap (1 / (1 + s * a1))).
  apply Qmult_le_compat_r; [| exact Hgap].
  apply discount_nonincreasing; assumption.
Qed.

Lemma calculateComponentVulnerability_nonincreasing_witness :
  exists v1 v2,
    calculateComponentVulnerability (Finite 0.5) (Finite 10) (Finite 0.5) = Finite v1
    /\ calculateComponentVulnerability (Finite 0.5) (Finite 20) (Finite 0.5) = Finite v2
    /\ v2 <= v1.
Proof.
  apply (calculateComponentVulnerability_nonincreasing 0.5 0.5 10 20);
    unfold Qle; simpl; lia.
Defined.

(* ================================================================= *)
(** ** Aggregation: trimming and the default cap *)

Lemma length_insert_by_gap (x : Indicator) (l : list Indicator) :
  length (insert_by_gap x l) = S (length l).
Proof.
  induction l as [| y l IH]; simpl; [reflexivity |].
  case_if; simpl; [rewrite IH |]; reflexivity.
Qed.

Lemma length_sort_by_gap (l : list Indicator) :
  length (sort_by_gap l) = length l.
Proof.
  induction l as [| x l IH]; simpl; [reflexivity |].
  rewrite length_insert_by_gap, IH. reflexivity.
Qed.

Lemma length_slice {A : Type} (start stop : nat) (l : list A) :
  (stop <= length l)%nat -> length (slice start stop l) = (stop - start)%nat.
Proof.
  intro H. unfold slice. rewrite length_firstn, length_skipn. lia.
Qed.

Lemma trimCount_twice (n : nat) : (5 < n)%nat -> (2 * trimCount n < n)%nat.
Proof.
  intro H. unfold trimCount.
  pose proof (Nat.Div0.mul_div_le n 10). lia.
Qed.

Lemma length_trimmedIndicators (capped : list Indicator) :
  length (trimmedIndicators capped)
  = (length capped - 2 * trimCount (length capped))%nat.
Proof.
  unfold trimmedIndicators. rewrite length_slice; rewrite length_sort_by_gap; lia.
Qed.

Lemma length_cappedIndicators (cap : number) (valid : list Indicator) :
  length (cappedIndicators cap valid) = length valid.
Proof. apply length_map. Qed.

(** One unfolding of the recursion. *)
Lemma calculateComponentAverageGap_rec_S
  (fuel : nat) (indicators : list Indicator) (options : option GapCalculation)
  (subsectorId : option string) :
  calculateComponentAverageGap_rec (S fuel) indicators options subsectorId
  = let valid := validIndicators indicators in
    let capped := cappedIndicators (effectiveCap options subsectorId valid) valid in
    if (length valid =? 0)%nat then Some (Finite 0)
    else if opt_or (opt_field options trimOutliers) true && (5 <? length capped)%nat
         then if (length (trimmedIndicators capped) =? 0)%nat
              then calculateComponentAverageGap_rec fuel indicators
                     (without_trimming options) subsectorId
              else calculateComponentAverageGap_rec fuel (trimmedIndicators capped)
                     (without_trimming options) subsectorId
         else if opt_or (opt_field options useWeightedAverage) false
              then Some (weightedMean capped)
              else Some (simpleMean capped).
Proof. reflexivity. Qed.

(** With trimming switched off one level answers, whatever fuel is left. *)
Lemma calculateComponentAverageGap_rec_without_trimming
  (fuel : nat) (indicators : list Indicator) (options : option GapCalculation)
  (subsectorId : option string) :
  calculateComponentAverageGap_rec (S fuel) indicators (without_trimming options) subsectorId
  = calculateComponentAverageGap_rec 1 indicators (without_trimming options) subsectorId.
Proof.
  rewrite !calculateComponentAverageGap_rec_S.
  cbn [without_trimming opt_field trimOutliers opt_or andb]. reflexivity.
Qed.

Lemma calculateComponentAverageGap_rec_returns
  (indicators : list Indicator) (options : option GapCalculation)
  (subsectorId : option string) :
  exists g, calculateComponentAverageGap_rec 1 indicators
              (without_trimming options) subsectorId = Some g.
Proof.
  rewrite calculateComponentAverageGap_rec_S.
  cbn [without_trimming opt_field trimOutliers opt_or andb]. cbv zeta.
  repeat case_if; eauto.
Qed.

(** The aggregation always returns: two levels of [fuel] are enough for
    every input. *)
Lemma calculateComponentAverageGap_total
  (indicators : list Indicator) (options : option GapCalculation)
  (subsectorId : option string) :
  exists g, calculateComponentAverageGap_rec 2 indicators options subsectorId = Some g.
Proof.
  rewrite calculateComponentAverageGap_rec_S. cbv zeta.
  destruct (length (validIndicators indicators) =? 0)%nat; [eauto |].
  destruct (opt_or (opt_field options trimOutliers) true && _).
  - destruct (length (trimmedIndicators _) =? 0)%nat;
      apply calculateComponentAverageGap_rec_returns.
  - destruct (opt_or _ false); eauto.
Qed.

(** A slice cuts a list in three: what comes before it, the slice, and
    what comes after it. *)
Lemma slice_split {A : Type} (start stop : nat) (l : list A) :
  (start <= stop)%nat ->
  l = firstn start l ++ slice start stop l ++ skipn stop l.
Proof.
  intro H. unfold slice.
  replace (skipn stop l) with (skipn (stop - start) (skipn start l))
    by (rewrite skipn_skipn; f_equal; lia).
  rewrite firstn_skipn, firstn_skipn. reflexivity.
Qed.

(** [Math.floor(n * 0.1)] is the integer quotient of [n] by 10. *)
Lemma trimCount_floor (n : nat) :
  trimCount n = (n / 10)%nat
  /\ (10 * trimCount n <= n)%nat /\ (n < 10 * trimCount n + 10)%nat.
Proof.
  unfold trimCount. split; [reflexivity |].
  pose proof (Nat.Div0.mul_div_le n 10).
  pose proof (Nat.mul_succ_div_gt n 10 ltac:(lia)). lia.
Qed.

(** Trimming takes [floor(n / 10)] indicators off each end of the
    sorted list. *)
Lemma trimmedIndicators_ends (capped : list Indicator) :
  exists lowest highest,
    sort_by_gap capped = lowest ++ trimmedIndicators capped ++ highest
    /\ length lowest = (length capped / 10)%nat
    /\ length highest = (length capped / 10)%nat.
Proof.
  unfold trimmedIndicators. cbv zeta.
  set (sorted := sort_by_gap capped).
  assert (Hlen : length sorted = length capped) by apply length_sort_by_gap.
  rewrite Hlen.
  destruct (trimCount_floor (length capped)) as (Ht & Hlo & Hhi).
  set (t := trimCount (length capped)) in *.
  exists (firstn t sorted), (skipn (length capped - t) sorted).
  split; [| split].
  - apply slice_split. lia.
  - rewrite length_firstn, Hlen, <- Ht. lia.
  - rewrite length_skipn, Hlen, <- Ht. lia.
Qed.

(** C10.  With more than 5 valid indicators, trimming removes
    [floor(n / 10)] indicators from each end of the sorted list: the
    sorted list is the removed lowest ones, then the trimmed set, then
    the removed highest ones, each removed part having [floor(n / 10)]
    members.  Since [2 * floor(n / 10) < n], the trimmed set keeps
    [n - 2 * floor(n / 10)] indicators, at least one; the call therefore
    continues on the trimmed set, never on the untrimmed one, and that
    inner call, trimming being off, answers at depth one whatever fuel
    is left. *)
Theorem trimming_leaves_indicators
  (indicators : list Indicator) (options : option GapCalculation)
  (subsectorId : option string) :
  let valid := validIndicators indicators in
  let capped := cappedIndicators (effectiveCap options subsectorId valid) valid in
  let n := length valid in
  (5 < n)%nat ->
  opt_or (opt_field options trimOutliers) true = true ->
  (exists lowest highest,
      sort_by_gap capped = lowest ++ trimmedIndicators capped ++ highest
      /\ length lowest = (n / 10)%nat /\ length highest = (n / 10)%nat)
  /\ (2 * (n / 10) < n)%nat
  /\ length (trimmedIndicators capped) = (n - 2 * (n / 10))%nat
  /\ (0 < length (trimmedIndicators capped))%nat
  /\ (forall fuel,
        calculateComponentAverageGap_rec (S (S fuel)) indicators options subsectorId
        = calculateComponentAverageGap_rec 1 (trimmedIndicators capped)
            (without_trimming options) subsectorId)
  /\ exists g, calculateComponentAverageGap_rec 1 (trimmedIndicators capped)
                 (without_trimming options) subsectorId = Some g.
Proof.
  intros valid capped n Hn Htrim.
  assert (Hcapped : length capped = n) by apply length_cappedIndicators.
  destruct (trimCount_floor n) as (Ht & _).
  assert (Hlen : length (trimmedIndicators capped) = (n - 2 * (n / 10))%nat).
  { rewrite length_trimmedIndicators, Hcapped, Ht. reflexivity. }
  assert (Hlt : (2 * (n / 10) < n)%nat).
  { rewrite <- Ht. apply trimCount_twice, Hn. }
  split.
  { destruct (trimmedIndicators_ends capped) as (lowest & highest & H).
    rewrite Hcapped in H. exists lowest, highest. exact H. }
  split; [exact Hlt |]. split; [exact Hlen |]. split; [lia |]. split.
  - intro fuel.
    rewrite calculateComponentAverageGap_rec_S. cbv zeta.
    fold valid. fold capped. fold n.
    destruct (Nat.eqb_spec n 0) as [E | _]; [lia |].
    rewrite Htrim, Hcapped.
    destruct (Nat.ltb_spec 5 n) as [_ | E]; [| lia].
    cbn [andb].
    destruct (Nat.eqb_spec (length (trimmedIndicators capped)) 0) as [E | _]; [lia |].
    apply calculateComponentAverageGap_rec_without_trimming.
  - apply calculateComponentAverageGap_rec_returns.
Qed.

(** Twelve indicators in no particular order, all below the default
    cap of 8: one is removed at each end, ten are left. *)
Lemma trimming_leaves_indicators_witness :
  let indicators := map sample_indicator [2.5; 6; 1.5; 4; 0.5; 5; 3.5; 1; 5.5; 2; 4.5; 3] in
  let capped := cappedIndicators (effectiveCap None None (validIndicators indicators))
                                 (validIndicators indicators) in
  (exists lowest highest,
      sort_by_gap capped = lowest ++ trimmedIndicators capped ++ highest
      /\ length lowest = 1%nat /\ length highest = 1%nat)
  /\ (2 * 1 < 12)%nat
  /\ length (trimmedIndicators capped) = 10%nat
  /\ (0 < length (trimmedIndicators capped))%nat
  /\ (forall fuel,
        calculateComponentAverageGap_rec (S (S fuel)) indicators None None
        = calculateComponentAverageGap_rec 1 (trimmedIndicators capped)
            (without_trimming None) None)
  /\ exists g, calculateComponentAverageGap_rec 1 (trimmedIndicators capped)
                 (without_trimming None) None = Some g.
Proof.
  intros indicators capped.
  apply (trimming_leaves_indicators indicators None None).
  - vm_compute. lia.
  - reflexivity.
Defined.

(** What is removed there, the lowest gap (0.5) and the highest (6),
    and what is kept. *)
Example trimming_removes_both_ends :
  map (fun i => nred (performanceGap i))
      (trimmedIndicators
         (map sample_indicator [2.5; 6; 1.5; 4; 0.5; 5; 3.5; 1; 5.5; 2; 4.5; 3]))
  = map Finite [1; 3 # 2; 2; 5 # 2; 3; 7 # 2; 4; 9 # 2; 5; 11 # 2].
Proof. vm_compute. reflexivity. Qed.

(** Called without a cap option, and with no per-subsector cap for the
    component, the aggregation takes 8.0 as the cap. *)
Lemma configuredCap_default (options : option GapCalculation) (subsectorId : option string) :
  opt_field options capMaxGap = None ->
  opt_field options perSubsectorCaps = None ->
  configuredCap options subsectorId = Finite 8.0.
Proof.
  intros Hcap Hper. unfold configuredCap. rewrite Hcap, Hper.
  destruct subsectorId; reflexivity.
Qed.

(** [computeFSFVI] fills a missing cap in with 5.0, and hands neither
    percentile capping nor per-subsector caps on. *)
Lemma computeFSFVI_default_cap (data : FSFVIData) (config : option FSFVIConfig) :
  opt_field (opt_field config gapCalculation) capMaxGap = None ->
  forall subsectorId,
    configuredCap (gapCalculation (configurationUsed (computeFSFVI data config)))
                  subsectorId = Finite 5.0.
Proof.
  intros H subsectorId. cbn. rewrite H. destruct subsectorId; reflexivity.
Qed.

(** C6.  One component with a single indicator of gap 6 and no
    configuration: [calculateComponentAverageGap] called without options
    leaves the gap at 6 (cap 8.0), but the pipeline of [computeFSFVI]
    clamps it to 5, its own default being 5.0. *)
Theorem computeFSFVI_clamps_at_5 :
  let data := mkData [sample_component "X" [6] 10] (Finite 10) in
  calculateComponentAverageGap [sample_indicator 6] None (Some "X"%string) = Finite 6
  /\ map (fun p => averagePerformanceGap (snd p))
         (subsectors (processedData (computeFSFVI data None)))
     = [Finite 5.0]
  /\ capMaxGap (opt_or (gapCalculation (configurationUsed (computeFSFVI data None)))
                       (mkGapCalculation None None None None None None))
     = Some (Finite 5.0).
Proof. vm_compute. repeat split. Qed.

(* ================================================================= *)
(** ** Sums of numbers *)

Lemma nadd_finite_inv (a b : number) (c : Q) :
  nadd a b = Finite c -> exists x y, a = Finite x /\ b = Finite y /\ c = x + y.
Proof.
  destruct a, b; simpl; intro H; try discriminate.
  injection H as <-. eauto.
Qed.

Lemma fold_left_Qplus (qs : list Q) (a : Q) :
  fold_left Qplus qs a == a + Qsum qs.
Proof.
  revert a. induction qs as [| q qs IH]; intro a; simpl.
  - lra.
  - rewrite IH. lra.
Qed.

Lemma fold_left_nadd_finite (qs : list Q) (a : Q) :
  fold_left nadd (map Finite qs) (Finite a) = Finite (fold_left Qplus qs a).
Proof.
  revert a. induction qs as [| q qs IH]; intro a; simpl; [reflexivity | apply IH].
Qed.

Lemma nsum_finite (qs : list Q) :
  exists t, nsum (map Finite qs) = Finite t /\ t == Qsum qs.
Proof.
  exists (fold_left Qplus qs 0). split.
  - apply fold_left_nadd_finite.
  - rewrite fold_left_Qplus. lra.
Qed.

Lemma fold_left_nadd_finite_inv (l : list number) (acc : number) (t : Q) :
  fold_left nadd l acc = Finite t ->
  exists a qs, acc = Finite a /\ l = map Finite qs.
Proof.
  revert acc. induction l as [| x l IH]; intros acc H; simpl in H.
  - exists t, []. split; [exact H | reflexivity].
  - destruct (IH _ H) as (a & qs & Ha & Hl).
    destruct (nadd_finite_inv _ _ _ Ha) as (u & v & -> & -> & _).
    exists u, (v :: qs). split; [reflexivity | simpl; congruence].
Qed.

(** A sum is finite only if every term is, and then it is their sum. *)
Lemma nsum_finite_inv (l : list number) (t : Q) :
  nsum l = Finite t -> exists qs, l = map Finite qs /\ t == Qsum qs.
Proof.
  intro H. destruct (fold_left_nadd_finite_inv _ _ _ H) as (a & qs & _ & ->).
  exists qs. split; [reflexivity |].
  destruct (nsum_finite qs) as (t' & Ht' & E). rewrite Ht' in H.
  injection H as <-. exact E.
Qed.


(* ================================================================= *)
(** ** Objects as association lists *)





(** An object built by assigning [f id] at every id answers [f id]. *)
Lemma get_tabulate (f : string -> number) (ids : list string) (k : string) :
  In k ids -> get (map (fun id => (id, f id)) ids) k = f k.
Proof.
  unfold get. induction ids as [| i ids IH]; simpl; [tauto |].
  intros [-> | Hin].
  - rewrite String.eqb_refl. reflexivity.
  - destruct (String.eqb_spec i k) as [-> | _]; [reflexivity | apply IH, Hin].
Qed.

(* ================================================================= *)
(** ** Component weights *)







Lemma keys_json_subsectors (subsectors : list (string * FSFVIComponent)) :
  map fst (json_subsectors subsectors) = map fst subsectors.
Proof.
  unfold json_subsectors. rewrite map_map. apply map_ext. intros [k c]. reflexivity.
Qed.

Lemma assignedWeights_assignComponentWeights
  (subsectors : list (string * FSFVIComponent))
  (policyPriorities : option (list (string * number)))
  (contextualFactors : option ContextualFactors) :
  let w := workingWeights (json_subsectors subsectors) policyPriorities contextualFactors in
  assignedWeights (assignComponentWeights subsectors policyPriorities contextualFactors)
  = map (fun key => ndiv (get w key) (nsum (map snd w))) (map fst subsectors).
Proof.
  intro w. unfold assignedWeights, assignComponentWeights. fold w.
  rewrite <- (keys_json_subsectors subsectors), !map_map.
  apply map_ext. intros [k c]. reflexivity.
Qed.



(* ================================================================= *)
(** ** The optimizer: one iteration *)

(** C9.  An iteration that does not break keeps the allocations it has
    computed in both cases; when the recomputed index is lower than the
    previous one it is recorded and the learning rate is multiplied by
    1.1, and otherwise the learning rate is multiplied by 0.5 and the
    recorded index is the previous one again. *)
Theorem adaptive_step (c : Constraints) (st : LoopState) :
  let g := gradients (workingData st) (currentAllocations st) in
  let total := totalGradientMagnitude g in
  let allocations :=
    newAllocations c (learningRate st) total g (currentAllocations st) in
  let newFSFVI := calculateFSFVI (withAllocations (workingData st) allocations) in
  neqb total 0 = false ->
  exists st',
    iterationBody c (enterIteration st) = Some st'
    /\ currentAllocations st' = allocations
    /\ workingData st' = withAllocations (workingData st) allocations
    /\ prevFSFVI st' = currentFSFVI st
    /\ iteration st' = S (iteration st)
    /\ (nltb newFSFVI (currentFSFVI st) = true ->
        learningRate st' = nmul (learningRate st) 1.1
        /\ currentFSFVI st' = newFSFVI)
    /\ (nltb newFSFVI (currentFSFVI st) = false ->
        learningRate st' = nmul (learningRate st) 0.5
        /\ currentFSFVI st' = currentFSFVI st).
Proof.
  intros g total allocations newFSFVI Htotal.
  unfold iterationBody.
  cbn [enterIteration workingData currentAllocations learningRate prevFSFVI iteration].
  fold g. fold total. rewrite Htotal. fold allocations. fold newFSFVI.
  destruct (nltb newFSFVI (currentFSFVI st)) eqn:E; eexists;
    (split; [reflexivity |]); cbn; repeat split; intros; congruence.
Qed.

(** A non-improving iteration ends the loop: the recorded index equals
    the previous one, so the stopping test sees no improvement. *)
Lemma loop_stops_after_reverting (st : LoopState) (x : Q) :
  currentFSFVI st = Finite x -> prevFSFVI st = Finite x -> loopCondition st = false.
Proof.
  intros Hc Hp. unfold loopCondition. rewrite Hc, Hp.
  apply andb_false_iff. right. unfold ngtb, minImprovement. cbn [nsub nneg nadd].
  apply not_true_is_false. intro H. apply nltb_finite in H. lra.
Qed.

Lemma adaptive_step_witness :
  let c := constraintsOf (totalBudget three_components)
                         (processedData (computeFSFVI three_components None)) in
  let st := initialState (computeFSFVI three_components None) in
  let g := gradients (workingData st) (currentAllocations st) in
  let total := totalGradientMagnitude g in
  let allocations :=
    newAllocations c (learningRate st) total g (currentAllocations st) in
  let newFSFVI := calculateFSFVI (withAllocations (workingData st) allocations) in
  exists st',
    iterationBody c (enterIteration st) = Some st'
    /\ currentAllocations st' = allocations
    /\ workingData st' = withAllocations (workingData st) allocations
    /\ prevFSFVI st' = currentFSFVI st
    /\ iteration st' = S (iteration st)
    /\ (nltb newFSFVI (currentFSFVI st) = true ->
        learningRate st' = nmul (learningRate st) 1.1
        /\ currentFSFVI st' = newFSFVI)
    /\ (nltb newFSFVI (currentFSFVI st) = false ->
        learningRate st' = nmul (learningRate st) 0.5
        /\ currentFSFVI st' = currentFSFVI st).
Proof.
  intros c st. apply (adaptive_step c st). vm_compute. reflexivity.
Defined.

(** On [three_components] the first iteration does not improve the index
    (it raises it from 11/60 to 7711/42000); the recorded index stays at
    11/60 while the allocations move from 8, 6, 6 to 7.5, 6.25, 6.25. *)
Example non_improving_iteration_keeps_allocations :
  let result := computeFSFVI three_components None in
  let c := constraintsOf (totalBudget three_components) (processedData result) in
  match iterationBody c (enterIteration (initialState result)) with
  | Some st' =>
      nred (fsfviValue result) = Finite (11 # 60)
      /\ nred (calculateFSFVI (workingData st')) = Finite (7711 # 42000)
      /\ nred (currentFSFVI st') = Finite (11 # 60)
      /\ nred (learningRate st') = Finite (1 # 20)
      /\ reduced (currentAllocations st')
         = [("A", Finite (15 # 2)); ("B", Finite (25 # 4)); ("C", Finite (25 # 4))]%string
  | None => False
  end.
Proof. vm_compute. repeat split. Qed.

(* ================================================================= *)
(** ** The optimizer: leaving the loop at once *)

Lemma optimizationLoop_S (fuel : nat) (c : Constraints) (st : LoopState) :
  optimizationLoop (S fuel) c st
  = if loopCondition st then
      match iterationBody c (enterIteration st) with
      | Some st' => optimizationLoop fuel c st'
      | None => enterIteration st
      end
    else st.
Proof. reflexivity. Qed.

Lemma fold_left_nadd_zeros (l : list number) (a : Q) :
  Forall (fun x => neqb x 0 = true) l ->
  exists t, fold_left nadd (map nabs l) (Finite a) = Finite t /\ t == a.
Proof.
  revert a. induction l as [| x l IH]; intros a H; simpl.
  - exists a. split; [reflexivity | lra].
  - inversion H as [| ? ? Hx Hl]; subst.
    destruct x as [q | | |]; simpl in Hx; try discriminate.
    apply Qeq_bool_iff in Hx. cbn [nabs nadd].
    destruct (IH (a + Qabs q) Hl) as (t & Ht & E).
    exists t. split; [exact Ht |].
    assert (Hq : Qabs q == 0) by (rewrite Hx; reflexivity).
    lra.
Qed.

(** Gradients that are all zero have total magnitude zero. *)
Lemma totalGradientMagnitude_zero (g : list (string * number)) :
  Forall (fun p => neqb (snd p) 0 = true) g ->
  neqb (totalGradientMagnitude g) 0 = true.
Proof.
  intro H. unfold totalGradientMagnitude, nsum.
  destruct (fold_left_nadd_zeros (map snd g) 0) as (t & Ht & E).
  - apply Forall_map. exact H.
  - rewrite Ht. simpl. apply Qeq_bool_iff. exact E.
Qed.

Lemma get_in_values (m : list (string * number)) (k : string) :
  In k (map fst m) -> In (get m k) (map snd m).
Proof.
  unfold get. induction m as [| [k' v] m IH]; simpl; [tauto |].
  intros [-> | Hin].
  - rewrite String.eqb_refl. left. reflexivity.
  - destruct (String.eqb_spec k' k); [left; reflexivity | right; apply IH, Hin].
Qed.

Lemma keys_allocationsOf (data : FSFVIData) :
  map fst (allocationsOf data) = map fst (subsectors data).
Proof.
  unfold allocationsOf. rewrite map_map. apply map_ext. intros [k c]. reflexivity.
Qed.

(** C5.  When every gradient is zero at the first iteration the loop is
    left with the original allocations, and what is returned is each of
    them multiplied by [totalBudget / sum of the original allocations];
    they come back unchanged when they already sum to a nonzero budget. *)
Theorem zero_gradient_returns_rescaled (data : FSFVIData) :
  let result := computeFSFVI data None in
  let st0 := initialState result in
  let original := allocationsOf (processedData result) in
  let ids := map fst (subsectors (processedData result)) in
  Forall (fun p => neqb (snd p) 0 = true)
         (gradients (workingData st0) (currentAllocations st0)) ->
  currentAllocations (finalState data) = original
  /\ optimizedAllocations (optimizeResourceAllocation data)
     = map (fun id =>
              (id, nmul (get original id)
                        (ndiv (totalBudget data) (nsum (map snd original)))))
           ids
  /\ forall b t : Q,
       totalBudget data = Finite b -> nsum (map snd original) = Finite t ->
       t == b -> ~ b == 0 ->
       forall id, In id ids ->
         num_eq (get (optimizedAllocations (optimizeResourceAllocation data)) id)
                (get original id).
Proof.
  intros result st0 original ids Hzero.
  assert (Hfinal : currentAllocations (finalState data) = original).
  { unfold finalState. fold result. fold st0.
    change maxIterations with (S 99). rewrite optimizationLoop_S.
    destruct (loopCondition st0); [| reflexivity].
    unfold iterationBody.
    cbn [enterIteration workingData currentAllocations].
    rewrite (totalGradientMagnitude_zero _ Hzero). reflexivity. }
  assert (Hret : optimizedAllocations (optimizeResourceAllocation data)
                 = map (fun id =>
                          (id, nmul (get original id)
                                    (ndiv (totalBudget data) (nsum (map snd original)))))
                       ids).
  { unfold optimizeResourceAllocation. cbn [optimizedAllocations].
    rewrite Hfinal. reflexivity. }
  split; [exact Hfinal |]. split; [exact Hret |].
  intros b t Hb Ht Htb Hb0 id Hin.
  rewrite Hret, (get_tabulate _ ids id Hin), Hb, Ht.
  destruct (nsum_finite_inv _ _ Ht) as (qs & Hqs & _).
  assert (Hv : In (get original id) (map snd original)).
  { apply get_in_values. unfold original. rewrite keys_allocationsOf. exact Hin. }
  rewrite Hqs in Hv. apply in_map_iff in Hv as (q & Hq & _).
  rewrite <- Hq. rewrite ndiv_finite by lra. cbn [nmul num_eq].
  rewrite Htb. field. exact Hb0.
Qed.

Lemma zero_gradient_returns_rescaled_witness :
  let data := two_components_without_gap in
  let original := allocationsOf (processedData (computeFSFVI data None)) in
  currentAllocations (finalState data) = original
  /\ num_eq (get (optimizedAllocations (optimizeResourceAllocation data)) "X")
            (get original "X")
  /\ num_eq (get (optimizedAllocations (optimizeResourceAllocation data)) "Y")
            (get original "Y").
Proof.
  intros data original.
  destruct (zero_gradient_returns_rescaled data) as (H1 & _ & H3).
  - vm_compute. repeat constructor.
  - split; [exact H1 |].
    split; apply (H3 40 (10 + 30)); try reflexivity;
      try (vm_compute; discriminate); vm_compute; tauto.
Defined.

(** Against C5 as it is stated: one component without indicators (gap 0,
    gradient 0), allocation 10 and budget 20 comes back with 20. *)
Lemma zero_gradient_changes_allocations :
  Forall (fun p => neqb (snd p) 0 = true)
         (gradients
            (workingData (initialState (computeFSFVI component_without_gap None)))
            (currentAllocations (initialState (computeFSFVI component_without_gap None))))
  /\ originalAllocations (optimizeResourceAllocation component_without_gap)
     = [("X"%string, Finite 10)]
  /\ reduced (optimizedAllocations (optimizeResourceAllocation component_without_gap))
     = [("X"%string, Finite 20)]
  /\ ~ num_eq (get (optimizedAllocations
                      (optimizeResourceAllocation component_without_gap)) "X")
              (get (originalAllocations
                      (optimizeResourceAllocation component_without_gap)) "X").
Proof.
  split; [vm_compute; repeat constructor |].
  split; [vm_compute; reflexivity |].
  split; [vm_compute; reflexivity |].
  vm_compute. discriminate.
Qed.

(* ================================================================= *)
(** ** Keys are preserved along the pipeline and the loop *)

Lemma map_fst_entries {A B : Type} (f : string -> A -> B) (m : list (string * A)) :
  map fst (map (fun '(key, x) => (key, f key x)) m) = map fst m.
Proof.
  rewrite map_map. apply map_ext. intros [k x]. reflexivity.
Qed.

Lemma map_fst_tabulate {A : Type} (f : string -> A) (ids : list string) :
  map fst (map (fun id => (id, f id)) ids) = ids.
Proof.
  rewrite map_map. simpl. apply map_id.
Qed.

Lemma keys_preprocessData (data : FSFVIData) (g : option GapCalculation)
  (m : option (list (string * bool))) :
  map fst (subsectors (preprocessData data g m)) = map fst (subsectors data).
Proof. apply (map_fst_entries (preprocessSubsector g m)). Qed.

Lemma keys_estimateSensitivityParameters (s : list (string * FSFVIComponent)) :
  map fst (estimateSensitivityParameters s) = map fst s.
Proof.
  unfold estimateSensitivityParameters.
  rewrite (map_fst_entries (fun key c => set_sensitivityParameter c (estimateSensitivity key c))).
  apply keys_json_subsectors.
Qed.

Lemma keys_assignComponentWeights (s : list (string * FSFVIComponent))
  (p : option (list (string * number))) (f : option ContextualFactors) :
  map fst (assignComponentWeights s p f) = map fst s.
Proof.
  unfold assignComponentWeights.
  set (w := workingWeights _ _ _). set (t := nsum _).
  rewrite (map_fst_entries (fun key c => set_weight c (ndiv (get w key) t))).
  apply keys_json_subsectors.
Qed.

Lemma keys_calculateVulnerabilities (data : FSFVIData) (config : option FSFVIConfig) :
  map fst (subsectors (calculateVulnerabilities data config)) = map fst (subsectors data).
Proof.
  unfold calculateVulnerabilities. cbn [subsectors].
  rewrite (map_fst_entries (fun _ c => set_vulnerability c (componentVulnerability c))).
  rewrite keys_assignComponentWeights, keys_estimateSensitivityParameters.
  apply keys_preprocessData.
Qed.

Lemma keys_computeFSFVI (data : FSFVIData) (config : option FSFVIConfig) :
  map fst (subsectors (processedData (computeFSFVI data config)))
  = map fst (subsectors data).
Proof.
  unfold computeFSFVI. cbn [processedData].
  rewrite keys_calculateVulnerabilities. apply keys_preprocessData.
Qed.






Lemma iterationBody_iteration (c : Constraints) (st st' : LoopState) :
  iterationBody c st = Some st' -> iteration st' = iteration st.
Proof.
  unfold iterationBody. intro H.
  destruct (neqb _ 0); [discriminate |].
  destruct (nltb _ (prevFSFVI st)); injection H as <-; reflexivity.
Qed.

(** The loop runs at most [maxIterations - iteration] more times: fuel
    beyond that changes nothing, so the fuel given in [finalState] never
    cuts the loop short. *)
Lemma optimizationLoop_fuel (c : Constraints) (fuel : nat) (st : LoopState) :
  (maxIterations - iteration st <= fuel)%nat ->
  optimizationLoop fuel c st
  = optimizationLoop (maxIterations - iteration st) c st.
Proof.
  revert st. induction fuel as [| fuel IH]; intros st H.
  - replace (maxIterations - iteration st)%nat with O by lia. reflexivity.
  - destruct (maxIterations - iteration st)%nat as [| n] eqn:E.
    + rewrite optimizationLoop_S. unfold loopCondition.
      replace (iteration st <? maxIterations)%nat with false
        by (symmetry; apply Nat.ltb_ge; lia).
      reflexivity.
    + rewrite !optimizationLoop_S. destruct (loopCondition st); [| reflexivity].
      destruct (iterationBody c (enterIteration st)) as [st' |] eqn:Eb; [| reflexivity].
      apply iterationBody_iteration in Eb. cbn [enterIteration iteration] in Eb.
      rewrite IH by lia. f_equal. lia.
Qed.

Lemma finalState_fuel (data : FSFVIData) (fuel : nat) :
  (maxIterations <= fuel)%nat ->
  optimizationLoop fuel
    (constraintsOf (totalBudget data) (processedData (computeFSFVI data None)))
    (initialState (computeFSFVI data None))
  = finalState data.
Proof.
  intro H. unfold finalState. rewrite optimizationLoop_fuel.
  - cbn [initialState iteration]. rewrite Nat.sub_0_r. reflexivity.
  - cbn [initialState iteration]. lia.
Qed.


(* ================================================================= *)
(** ** The optimizer: the final rescaling *)



(** Outside the data model, where an allocation is at least 0, the sum
    can be lost: with allocations 5 and -5 (and no gap, so that the loop
    breaks at once) the final total is 0, the scale factor is infinite,
    and the returned allocations are [Infinity] and [-Infinity], whose
    sum is [NaN]. *)
Example negative_allocation_loses_budget :
  optimizedAllocations (optimizeResourceAllocation opposite_allocations)
  = [("A"%string, PosInf); ("B"%string, NegInf)]
  /\ ~ within 0.000001
         (nsum (map snd (optimizedAllocations
                           (optimizeResourceAllocation opposite_allocations))))
         (totalBudget opposite_allocations).
Proof.
  split; [vm_compute; reflexivity |].
  vm_compute. tauto.
Qed.

(* ================================================================= *)
(** ** The optimizer: the bounds *)







(* ================================================================= *)
(** ** The optimizer: the recorded index *)




(** The index also rises on [three_components], whose allocations sum to
    the budget and lie within their bounds: the last iteration did not
    improve the index, and its allocations are the ones returned. *)
Example optimizedFSFVI_above_original_within_budget :
  nred (originalFSFVI (optimizeResourceAllocation three_components)) = Finite (11 # 60)
  /\ nred (optimizedFSFVI (optimizeResourceAllocation three_components))
     = Finite (7711 # 42000)
  /\ nleb (optimizedFSFVI (optimizeResourceAllocation three_components))
          (nadd (originalFSFVI (optimizeResourceAllocation three_components))
                (Finite 0.000000001))
     = false.
Proof. vm_compute. repeat split. Qed.

(* ================================================================= *)
(** ** What the pipeline computes is finite *)

Lemma is_finite_inv (a : number) : is_finite a = true -> exists x, a = Finite x.
Proof. destruct a; try discriminate. eauto. Qed.

Lemma is_finite_nadd (a b : number) :
  is_finite a = true -> is_finite b = true -> is_finite (nadd a b) = true.
Proof. destruct a, b; try discriminate; reflexivity. Qed.

Lemma is_finite_nsub (a b : number) :
  is_finite a = true -> is_finite b = true -> is_finite (nsub a b) = true.
Proof. destruct a, b; try discriminate; reflexivity. Qed.

Lemma is_finite_nmul (a b : number) :
  is_finite a = true -> is_finite b = true -> is_finite (nmul a b) = true.
Proof. destruct a, b; try discriminate; reflexivity. Qed.

Lemma is_finite_ndiv (a : number) (y : Q) :
  is_finite a = true -> ~ y == 0 -> is_finite (ndiv a (Finite y)) = true.
Proof.
  destruct a; try discriminate. intros _ H. rewrite ndiv_finite by exact H. reflexivity.
Qed.

Lemma is_finite_nmin (a b : number) :
  is_finite a = true -> is_finite b = true -> is_finite (nmin a b) = true.
Proof.
  destruct a, b; try discriminate. intros _ _. unfold nmin. case_if; reflexivity.
Qed.

Lemma is_finite_if (b : bool) (x y : number) :
  is_finite x = true -> is_finite y = true -> is_finite (if b then x else y) = true.
Proof. destruct b; auto. Qed.









Lemma table_or_positive (table : list (string * number)) (key : string) (d : number) :
  Forall (fun p => positive (snd p)) table -> positive d ->
  positive (table_or table key d).
Proof.
  intros Htable Hd. unfold table_or.
  induction Htable as [| [k v] table (q & Hv & Hq) _ IH]; simpl; [exact Hd |].
  destruct (String.eqb k key); [| exact IH].
  simpl in Hv. subst v. unfold nor, truthy.
  destruct (Qeq_bool_spec q 0); [lra |]. exists q. split; [reflexivity | exact Hq].
Qed.

Lemma baselineSensitivity_positive (key : string) :
  positive (table_or baselineSensitivity key defaultSensitivity).
Proof.
  apply table_or_positive.
  - repeat constructor; eexists; split; reflexivity.
  - eexists; split; reflexivity.
Qed.


(** The estimated sensitivity of a component with finite expenditures
    and gap lies in [0.1, 0.8]. *)
Lemma estimateSensitivity_bounds (key : string) (c : FSFVIComponent) (f g : Q) :
  totalExpenditures c = Finite f -> averagePerformanceGap c = Finite g ->
  exists s, estimateSensitivity key c = Finite s /\ 0.1 <= s /\ s <= 0.8.
Proof.
  intros Hf Hg. unfold estimateSensitivity. cbv zeta. rewrite Hf, Hg.
  destruct (baselineSensitivity_positive key) as (e0 & -> & _).
  match goal with
  | |- exists s, nmax _ (nmin _ ?e) = _ /\ _ =>
      assert (He : is_finite e = true)
  end.
  { unfold complexityPenalty, scaleBonus, lagPenalty, of_nat.
    repeat first
      [ reflexivity
      | apply is_finite_if
      | apply is_finite_nsub
      | apply is_finite_nadd
      | apply is_finite_nmul
      | apply is_finite_nmin
      | apply is_finite_ndiv; [| lra] ]. }
  apply is_finite_inv in He as (e & ->).
  destruct (nmin_finite 0.8 e) as (z & -> & Hz1 & Hz2 & _).
  destruct (nmax_finite 0.1 z) as (s & -> & Hs1 & Hs2 & [E | E]);
    exists s; (split; [reflexivity | lra]).
Qed.








(* ================================================================= *)
(** ** The optimizer: the returned index *)




Lemma calculateFSFVI_fold (data : FSFVIData) :
  calculateFSFVI data = fold_left indexStep (subsectors data) (Finite 0).
Proof.
  unfold calculateFSFVI. generalize (Finite 0).
  induction (subsectors data) as [| [k c] l IH]; intro acc; simpl; [reflexivity |].
  apply IH.
Qed.









(** What the theorem leaves out: on [three_components] the only
    iteration makes the index worse; its allocations are kept while the
    recorded index is the original one, so the index of the allocations
    held when the loop is left is above the recorded index. *)
Example worsening_iteration_is_kept :
  reduced (currentAllocations (finalState three_components))
  = [("A"%string, Finite (15 # 2)); ("B"%string, Finite (25 # 4));
     ("C"%string, Finite (25 # 4))]
  /\ nred (currentFSFVI (finalState three_components)) = Finite (11 # 60)
  /\ nred (calculateFSFVI (workingData (finalState three_components)))
     = Finite (7711 # 42000)
  /\ nleb (calculateFSFVI (workingData (finalState three_components)))
          (currentFSFVI (finalState three_components))
     = false.
Proof. vm_compute. repeat split. Qed.

(* ================================================================= *)
(** ** The optimizer: one iteration never loses the total *)











Section Iteration.

Variable c : Constraints.
Variable b : Q.
Hypothesis Hbudget : budget c = Finite b.
Hypothesis Hb : 0 <= b.
Hypothesis Hmin : forall id, In id (componentIds c) ->
  positive (get (minAllocations c) id).
Hypothesis Hmax : forall id, In id (componentIds c) ->
  exists h, get (maxAllocations c) id = Finite h /\ 0 <= h.






End Iteration.

(* ================================================================= *)
(** ** The optimizer: the budget *)

(** The allocations with which the optimizer starts are those of the
    input, a non-finite one being read as 0 after the deep copies. *)
Lemma allocationsOf_computeFSFVI (data : FSFVIData) (config : option FSFVIConfig) :
  allocationsOf (processedData (computeFSFVI data config))
  = map (fun p => (fst p, json_number (totalExpenditures (snd p)))) (subsectors data).
Proof.
  unfold allocationsOf, computeFSFVI, calculateVulnerabilities, assignComponentWeights,
    estimateSensitivityParameters, json_subsectors, preprocessData.
  cbn [processedData subsectors].
  rewrite !map_map. apply map_ext. intros [k c].
  cbn [fst snd set_vulnerability set_weight set_sensitivityParameter json_component
       preprocessSubsector totalExpenditures].
  destruct (totalExpenditures c); reflexivity.
Qed.




Lemma positive_value (fs : list Q) (l : list number) :
  l = map Finite fs -> Exists (fun a => nltb 0 a = true) l ->
  Exists (fun q => 0 < q) fs.
Proof.
  intros -> H. apply Exists_exists in H as (a & Hin & Ha).
  apply in_map_iff in Hin as (q & <- & Hq).
  apply Exists_exists. exists q. split; [exact Hq |].
  apply nltb_finite in Ha. exact Ha.
Qed.






(** In exact arithmetic the same dataset comes back with a sum that is
    the budget. *)
Example optimizedAllocations_exact_large_budget :
  nred (nsum (map snd (optimizedAllocations
                         (optimizeResourceAllocation large_budget_components))))
  = Finite 1000000000000.
Proof. vm_compute. reflexivity. Qed.

(* ================================================================= *)
(** * Further properties of the code *)

(* ================================================================= *)
(** ** The performance gap, continued *)

(** X1.  A value equal to its benchmark has gap 0, whatever its sign and
    whichever direction is preferred. *)
Theorem calculatePerformanceGap_at_benchmark (x : Q) (preferHigher : bool) :
  exists g, calculatePerformanceGap (Some (Finite x)) (Some (Finite x)) preferHigher
            = Finite g /\ g == 0.
Proof.
  unfold calculatePerformanceGap, neqb, ngeb, ngtb, nleb, nltb, nabs, nsub, nneg, nadd.
  destruct (Qeq_bool_spec x 0) as [Hx | Hx].
  - exists 0. split; [reflexivity | lra].
  - assert (Habs : 0 < Qabs x).
    { destruct (Qlt_le_dec x 0) as [Hlt | Hge].
      - rewrite (Qabs_of_neg x Hlt). lra.
      - rewrite (Qabs_of_nonneg x Hge).
        destruct (Qle_lt_or_eq _ _ Hge) as [H | H]; [exact H | symmetry in H; contradiction]. }
    assert (Hnz : ~ Qabs x == 0) by lra.
    destruct preferHigher; qbool; try lra;
      try rewrite (ndiv_finite _ _ Hnz);
      eexists; (split; [reflexivity |]); try lra;
      field; exact Hnz.
Qed.




(* ================================================================= *)
(** ** Component vulnerability, continued *)

(** X4.  For a gap and a sensitivity that are at least 0 the
    vulnerability lies between 0 and the gap, and it is the whole gap
    when nothing (or a negative amount) is allocated. *)
Theorem calculateComponentVulnerability_bounds (gap s f : Q) :
  0 <= gap -> 0 <= s ->
  exists v,
    calculateComponentVulnerability (Finite gap) (Finite f) (Finite s) = Finite v
    /\ 0 <= v /\ v <= gap /\ (f <= 0 -> v == gap).
Proof.
  intros Hgap Hs.
  destruct (calculateComponentVulnerability_finite gap f s Hs)
    as (a & _ & Ha & _ & Hz & _ & E).
  exists (gap * (1 / (1 + s * a))). split; [exact E |].
  assert (Hsa : 0 <= s * a) by (apply Qmult_le_0_compat; assumption).
  assert (Hd0 : 0 <= 1 / (1 + s * a)) by (apply Qdiv_nonneg_pos; lra).
  assert (Hd1 : 1 / (1 + s * a) <= 1) by (apply Qle_shift_div_r; lra).
  split; [apply Qmult_le_0_compat; assumption |]. split.
  - setoid_replace gap with (1 * gap) at 2 by ring.
    rewrite (Qmult_comm gap). apply Qmult_le_compat_r; assumption.
  - intro Hf. rewrite (Hz Hf). field.
Qed.

Lemma calculateComponentVulnerability_bounds_witness :
  exists v,
    calculateComponentVulnerability (Finite 0.5) (Finite (-4)) (Finite 0.5) = Finite v
    /\ 0 <= v /\ v <= 0.5 /\ (-4 <= 0 -> v == 0.5).
Proof.
  apply (calculateComponentVulnerability_bounds 0.5 0.5 (-4)); unfold Qle; simpl; lia.
Defined.

(* ================================================================= *)
(** ** Efficiency metrics *)



(** X6.  An optimized index of 0 is not guarded: the gap ratio is then
    no finite number ([Infinity], [-Infinity] or [NaN]). *)
Theorem calculateEfficiencyMetrics_zero_optimized (original optimized : Q) :
  optimized == 0 ->
  is_finite (gapRatio (calculateEfficiencyMetrics (Finite original) (Finite optimized)))
  = false.
Proof.
  intro Hp. unfold calculateEfficiencyMetrics.
  cbn [gapRatio nsub nneg nadd]. unfold ndiv.
  destruct (Qeq_bool_spec optimized 0) as [_ | H]; [| contradiction].
  destruct (Qsign _); reflexivity.
Qed.

Lemma calculateEfficiencyMetrics_zero_optimized_witness :
  is_finite (gapRatio (calculateEfficiencyMetrics (Finite 0.2) (Finite 0))) = false.
Proof.
  apply (calculateEfficiencyMetrics_zero_optimized 0.2 0). reflexivity.
Defined.

(* ================================================================= *)
(** ** Aggregation, continued *)

Lemma filter_idempotent {A : Type} (f : A -> bool) (l : list A) :
  filter f (filter f l) = filter f l.
Proof.
  induction l as [| x l IH]; simpl; [reflexivity |].
  destruct (f x) eqn:E; simpl; rewrite ?E, IH; reflexivity.
Qed.

Lemma validIndicators_idempotent (l : list Indicator) :
  validIndicators (validIndicators l) = validIndicators l.
Proof. apply filter_idempotent. Qed.

Lemma calculateComponentAverageGap_rec_valid (fuel : nat) (indicators : list Indicator)
  (options : option GapCalculation) (subsectorId : option string) :
  calculateComponentAverageGap_rec fuel (validIndicators indicators) options subsectorId
  = calculateComponentAverageGap_rec fuel indicators options subsectorId.
Proof.
  revert options. induction fuel as [| fuel IH]; intro options; [reflexivity |].
  rewrite !calculateComponentAverageGap_rec_S. cbv zeta.
  rewrite validIndicators_idempotent, IH. reflexivity.
Qed.

(** X7.  Indicators whose gap is negative or not a number take no part
    in the aggregation: the result is that of the indicators with a gap
    at least 0 alone, under every option. *)
Theorem calculateComponentAverageGap_ignores_invalid (indicators : list Indicator)
  (options : option GapCalculation) (subsectorId : option string) :
  calculateComponentAverageGap indicators options subsectorId
  = calculateComponentAverageGap (validIndicators indicators) options subsectorId.
Proof.
  unfold calculateComponentAverageGap.
  rewrite calculateComponentAverageGap_rec_valid. reflexivity.
Qed.










(* ================================================================= *)
(** ** Percentile capping *)

Lemma nleb_trans (a b c : number) :
  nleb a b = true -> nleb b c = true -> nleb a c = true.
Proof.
  destruct a as [a | | |], b as [b | | |], c as [c | | |];
    cbn [nleb]; intros H1 H2; try discriminate; try reflexivity.
  apply Qle_bool_iff in H1. apply Qle_bool_iff in H2. apply Qle_bool_iff. lra.
Qed.

(** On gaps that passed the filter the comparator of the sort decides
    the order [gap_le] one way or the other. *)
Lemma comparator_order (a b : number) :
  nleb 0 a = true -> nleb 0 b = true ->
  if ngtb (nsub a b) 0 then nleb b a = true else nleb a b = true.
Proof.
  destruct a as [a | | |], b as [b | | |]; cbn [nleb]; intros Ha Hb;
    try discriminate; try reflexivity.
  unfold ngtb. cbn [nsub nneg nadd nltb].
  apply Qle_bool_iff in Ha. apply Qle_bool_iff in Hb.
  destruct (Qle_bool_spec (a + - b) 0); cbn [negb nleb]; apply Qle_bool_iff; lra.
Qed.

Lemma In_insert_by_gap (x y : Indicator) (l : list Indicator) :
  In y (insert_by_gap x l) <-> y = x \/ In y l.
Proof.
  induction l as [| z l IH]; simpl.
  - intuition congruence.
  - case_if; simpl; rewrite ?IH; intuition congruence.
Qed.

Lemma In_sort_by_gap (y : Indicator) (l : list Indicator) :
  In y (sort_by_gap l) <-> In y l.
Proof.
  induction l as [| x l IH]; simpl; [tauto |].
  rewrite In_insert_by_gap, IH. intuition congruence.
Qed.

Lemma insert_by_gap_sorted (x : Indicator) (l : list Indicator) :
  nleb 0 (performanceGap x) = true ->
  Forall (fun i => nleb 0 (performanceGap i) = true) l ->
  Sorted gap_le l -> Sorted gap_le (insert_by_gap x l).
Proof.
  intros Hx Hl Hs. induction Hs as [| z l Hs IH Hhd]; cbn [insert_by_gap].
  - repeat constructor.
  - inversion Hl as [| ? ? Hz Hl']; subst.
    pose proof (comparator_order _ _ Hx Hz) as Hcmp.
    destruct (ngtb (nsub (performanceGap x) (performanceGap z)) 0).
    + constructor; [apply IH, Hl' |].
      destruct l as [| w l]; cbn [insert_by_gap].
      * constructor. exact Hcmp.
      * case_if; constructor; [| exact Hcmp].
        inversion Hhd; subst. assumption.
    + constructor; [constructor; assumption |]. constructor. exact Hcmp.
Qed.

Lemma sort_by_gap_sorted (l : list Indicator) :
  Forall (fun i => nleb 0 (performanceGap i) = true) l ->
  Sorted gap_le (sort_by_gap l).
Proof.
  induction 1 as [| x l Hx Hl IH]; simpl; [constructor |].
  apply insert_by_gap_sorted; [exact Hx | | exact IH].
  apply Forall_forall. intros i Hi. apply (proj1 (In_sort_by_gap _ _)) in Hi.
  rewrite Forall_forall in Hl. apply Hl, Hi.
Qed.

(** In a sorted list of gaps that passed the filter nothing exceeds the
    last one. *)
Lemma sorted_last_is_largest (l : list Indicator) (d : Indicator) :
  StronglySorted gap_le l ->
  Forall (fun i => nleb 0 (performanceGap i) = true) l ->
  forall x, In x l -> gap_le x (nth (length l - 1) l d).
Proof.
  induction 1 as [| a l Hs IH Ha]; intros Hl x Hin; [contradiction |].
  inversion Hl as [| ? ? Hposa Hl']; subst.
  destruct l as [| b l'].
  - destruct Hin as [<- | []]. simpl. unfold gap_le.
    destruct (performanceGap a); cbn [nleb] in *; try discriminate; try reflexivity.
    apply Qle_bool_iff. lra.
  - assert (E : nth (length (a :: b :: l') - 1) (a :: b :: l') d
                = nth (length (b :: l') - 1) (b :: l') d).
    { cbn [length]. rewrite !Nat.sub_succ, !Nat.sub_0_r. reflexivity. }
    rewrite E. destruct Hin as [<- | Hin].
    + rewrite Forall_forall in Ha. apply Ha. apply nth_In. simpl. lia.
    + apply IH; assumption.
Qed.

Lemma percentile_index (n : nat) :
  (3 <= n <= 20)%nat ->
  let t := nfloor (ndiv (nmul (of_nat n) (Finite 95)) (Finite 100)) in
  ngtb t 0 = true /\ nltb t (of_nat n) = true /\ index_of t = (n - 1)%nat.
Proof.
  intro H.
  do 21 (destruct n as [| n]; [try lia; vm_compute; repeat split |]).
  lia.
Qed.

Lemma set_performanceGap_same (i : Indicator) :
  set_performanceGap i (performanceGap i) = i.
Proof. destruct i; reflexivity. Qed.

(** X9.  With percentile capping at the default threshold of 95 and
    between 3 and 20 indicators with a gap at least 0, the cap is the
    largest of their gaps: no gap is capped at all, and [capMaxGap] and
    the per-subsector caps have no effect. *)
Theorem percentile_capping_caps_nothing (indicators : list Indicator)
  (options : option GapCalculation) (subsectorId : option string) :
  let valid := validIndicators indicators in
  opt_or (opt_field options usePercentileCapping) false = true ->
  opt_or (opt_field options percentileThreshold) (Finite 95) = Finite 95 ->
  (3 <= length valid <= 20)%nat ->
  Exists (fun i => effectiveCap options subsectorId valid = performanceGap i) valid
  /\ cappedIndicators (effectiveCap options subsectorId valid) valid = valid.
Proof.
  intros valid Hperc Hthr Hn.
  assert (Hvalid : Forall (fun i => nleb 0 (performanceGap i) = true) valid).
  { unfold valid, validIndicators. apply Forall_forall. intros i Hi.
    apply filter_In in Hi as [_ Hi]. exact Hi. }
  assert (Hsorted : Forall (fun i => nleb 0 (performanceGap i) = true) (sort_by_gap valid)).
  { apply Forall_forall. intros i Hi. apply (proj1 (In_sort_by_gap _ _)) in Hi.
    rewrite Forall_forall in Hvalid. apply Hvalid, Hi. }
  assert (Hlen : length (sort_by_gap valid) = length valid) by apply length_sort_by_gap.
  destruct valid as [| d rest] eqn:Evalid; [simpl in Hn; lia |].
  rewrite <- Evalid in *.
  assert (Hcap : effectiveCap options subsectorId valid
                 = performanceGap (nth (length valid - 1) (sort_by_gap valid) d)).
  { unfold effectiveCap. cbv zeta. rewrite Hperc, Hthr.
    destruct (Nat.leb_spec 3 (length valid)) as [_ | H]; [| lia]. cbn [andb].
    rewrite length_map, Hlen.
    destruct (percentile_index (length valid) Hn) as (H1 & H2 & H3).
    rewrite H1, H2, H3. cbn [andb].
    rewrite <- (map_nth performanceGap).
    apply nth_indep. rewrite length_map, Hlen. lia. }
  assert (Hmax : forall i, In i valid ->
            nleb (performanceGap i) (effectiveCap options subsectorId valid) = true).
  { intros i Hi. rewrite Hcap, <- Hlen.
    apply (sorted_last_is_largest (sort_by_gap valid) d).
    - apply Sorted_StronglySorted.
      + intros a b c. apply nleb_trans.
      + apply sort_by_gap_sorted, Hvalid.
    - exact Hsorted.
    - apply (proj2 (In_sort_by_gap _ _)), Hi. }
  split.
  - apply Exists_exists. exists (nth (length valid - 1) (sort_by_gap valid) d).
    split; [| exact Hcap].
    apply (proj1 (In_sort_by_gap _ _)). apply nth_In. rewrite Hlen. lia.
  - unfold cappedIndicators. rewrite <- (map_id valid) at 2.
    apply map_ext_in. intros i Hi. specialize (Hmax i Hi).
    replace (nmin (performanceGap i) (effectiveCap options subsectorId valid))
      with (performanceGap i).
    + apply set_performanceGap_same.
    + unfold nmin. rewrite Hmax.
      destruct (performanceGap i), (effectiveCap options subsectorId valid);
        cbn [nleb] in Hmax; try discriminate; reflexivity.
Qed.

Lemma percentile_capping_caps_nothing_witness :
  let indicators := map sample_indicator [1; 2; 3; 20] in
  let options :=
    Some (mkGapCalculation None None (Some (Finite 8)) (Some true) (Some (Finite 95))
                           (Some [("Food security"%string, Finite 8)])) in
  let valid := validIndicators indicators in
  Exists (fun i => effectiveCap options (Some "Food security"%string) valid
                   = performanceGap i) valid
  /\ cappedIndicators (effectiveCap options (Some "Food security"%string) valid) valid
     = valid.
Proof.
  intros indicators options valid.
  apply (percentile_capping_caps_nothing indicators options (Some "Food security"%string)).
  - reflexivity.
  - reflexivity.
  - vm_compute. lia.
Defined.

(* ================================================================= *)
(** ** Aggregation: the cap bounds the result *)












(* ================================================================= *)
(** ** Preprocessing twice *)

Lemma processIndicator_idempotent (preferHigher : bool) (i : Indicator) :
  processIndicator preferHigher (processIndicator preferHigher i)
  = processIndicator preferHigher i.
Proof.
  unfold processIndicator at 2 3.
  destruct (ngeb (performanceGap i) 0 && nltb (performanceGap i) PosInf) eqn:E.
  - unfold processIndicator. rewrite E. reflexivity.
  - unfold processIndicator.
    cbn [set_performanceGap performanceGap value benchmark].
    case_if; reflexivity.
Qed.

Lemma preprocessSubsector_idempotent (g : option GapCalculation)
  (m : option (list (string * bool))) (key : string) (c : FSFVIComponent) :
  preprocessSubsector g m key (preprocessSubsector g m key c)
  = preprocessSubsector g m key c.
Proof.
  unfold preprocessSubsector. cbv zeta.
  cbn [indicators id name totalExpenditures sensitivityParameter weight vulnerability].
  rewrite map_map.
  rewrite (map_ext _ _ (processIndicator_idempotent (preferHigherFor m key))).
  reflexivity.
Qed.

(** X10.  Preprocessing is idempotent: preprocessing its own result
    under the same options changes nothing, so the second preprocessing
    that [computeFSFVI] runs through [calculateVulnerabilities] returns
    what the first one did. *)
Theorem preprocessData_idempotent (data : FSFVIData) (g : option GapCalculation)
  (m : option (list (string * bool))) :
  preprocessData (preprocessData data g m) g m = preprocessData data g m.
Proof.
  unfold preprocessData. cbn [subsectors totalBudget]. f_equal.
  rewrite map_map. apply map_ext. intros [k c].
  rewrite preprocessSubsector_idempotent. reflexivity.
Qed.

(* ================================================================= *)
(** ** Sensitivity parameters, continued *)

(** X11.  Whatever the input holds (missing, infinite or undefined
    expenditures and gaps included), every component that
    [estimateSensitivityParameters] returns carries a sensitivity that
    is a finite number between 0.1 and 0.8, and the keys are those of
    the input. *)
Theorem estimateSensitivityParameters_bounds (s : list (string * FSFVIComponent)) :
  map fst (estimateSensitivityParameters s) = map fst s
  /\ Forall (fun p => exists x, sensitivityParameter (snd p) = Some (Finite x)
                                /\ 0.1 <= x /\ x <= 0.8)
            (estimateSensitivityParameters s).
Proof.
  split; [apply keys_estimateSensitivityParameters |].
  unfold estimateSensitivityParameters, json_subsectors.
  rewrite map_map. apply Forall_map, Forall_forall. intros [k c] _.
  cbn [snd set_sensitivityParameter sensitivityParameter].
  assert (Hf : exists f, totalExpenditures (json_component c) = Finite f).
  { cbn [json_component totalExpenditures].
    destruct (totalExpenditures c); cbn [json_number]; eauto. }
  assert (Hg : exists g, averagePerformanceGap (json_component c) = Finite g).
  { cbn [json_component averagePerformanceGap].
    destruct (averagePerformanceGap c); cbn [json_number]; eauto. }
  destruct Hf as (f & Hf). destruct Hg as (g & Hg).
  destruct (estimateSensitivity_bounds k (json_component c) f g Hf Hg)
    as (x & -> & Hx).
  exists x. split; [reflexivity | exact Hx].
Qed.

(* ================================================================= *)
(** ** Component weights, continued *)

Lemma initialWeights_keys (s : list (string * FSFVIComponent)) :
  initialWeights s
  = map (fun key => (key, table_or baseWeights key defaultWeight)) (map fst s).
Proof.
  unfold initialWeights. rewrite map_map. apply map_ext. intros [k c]. reflexivity.
Qed.

Lemma workingWeights_keys (s1 s2 : list (string * FSFVIComponent))
  (p : option (list (string * number))) (f : option ContextualFactors) :
  map fst s1 = map fst s2 -> workingWeights s1 p f = workingWeights s2 p f.
Proof.
  intro H. unfold workingWeights. rewrite !initialWeights_keys, H. reflexivity.
Qed.

(** X12.  The weights depend on the keys of the components and on the
    configuration only: two sets of components with the same keys get
    the same weights, whatever their indicators, gaps and expenditures. *)
Theorem assignComponentWeights_by_keys (s1 s2 : list (string * FSFVIComponent))
  (p : option (list (string * number))) (f : option ContextualFactors) :
  map fst s1 = map fst s2 ->
  assignedWeights (assignComponentWeights s1 p f)
  = assignedWeights (assignComponentWeights s2 p f).
Proof.
  intro H. rewrite !assignedWeights_assignComponentWeights. cbv zeta.
  rewrite (workingWeights_keys (json_subsectors s1) (json_subsectors s2))
    by (rewrite !keys_json_subsectors; exact H).
  rewrite H. reflexivity.
Qed.

Lemma assignComponentWeights_by_keys_witness :
  assignedWeights
    (assignComponentWeights (subsectors three_components)
       (Some [("B"%string, Finite 2)]) (Some (mkFactors (Some true) None None None)))
  = assignedWeights
      (assignComponentWeights
         [sample_component "A" [] 1; sample_component "B" [3; 4] 0;
          sample_component "C" [1] 70]
         (Some [("B"%string, Finite 2)]) (Some (mkFactors (Some true) None None None))).
Proof.
  apply assignComponentWeights_by_keys. reflexivity.
Defined.

(* ================================================================= *)
(** ** What the pipeline reads *)

Lemma Forall2_map_both {A B : Type} (R : A -> A -> Prop) (R' : B -> B -> Prop)
  (f g : A -> B) (l1 l2 : list A) :
  (forall x y, R x y -> R' (f x) (g y)) ->
  Forall2 R l1 l2 -> Forall2 R' (map f l1) (map g l2).
Proof.
  intro H. induction 1; simpl; constructor; auto.
Qed.

Lemma Forall2_eq_list {A : Type} (l1 l2 : list A) : Forall2 eq l1 l2 -> l1 = l2.
Proof. induction 1; congruence. Qed.

Lemma agree_keys (a b c : bool) (s1 s2 : list (string * FSFVIComponent)) :
  Forall2 (agree a b c) s1 s2 -> map fst s1 = map fst s2.
Proof.
  induction 1 as [| p q s1 s2 Hpq _ IH]; simpl; [reflexivity |].
  destruct Hpq as (-> & _). rewrite IH. reflexivity.
Qed.

Lemma agree_preprocessData (b c : bool) (g : option GapCalculation)
  (m : option (list (string * bool))) (d1 d2 : FSFVIData) (a : bool) :
  Forall2 (agree a b c) (subsectors d1) (subsectors d2) ->
  Forall2 (agree true b c) (subsectors (preprocessData d1 g m))
                           (subsectors (preprocessData d2 g m)).
Proof.
  unfold preprocessData. cbn [subsectors].
  apply Forall2_map_both. intros [k1 c1] [k2 c2] H.
  unfold agree in *. cbn [fst snd] in *.
  destruct H as (-> & Hid & Hname & Hind & Hexp & _ & Hs & Hw).
  unfold preprocessSubsector. cbv zeta.
  cbn [id name indicators totalExpenditures averagePerformanceGap
       sensitivityParameter weight].
  rewrite Hid, Hname, Hind, Hexp. repeat split; assumption.
Qed.

Lemma agree_estimateSensitivityParameters (b c : bool)
  (s1 s2 : list (string * FSFVIComponent)) :
  Forall2 (agree true b c) s1 s2 ->
  Forall2 (agree true true false) (estimateSensitivityParameters s1)
                                  (estimateSensitivityParameters s2).
Proof.
  unfold estimateSensitivityParameters, json_subsectors. rewrite !map_map.
  apply Forall2_map_both. intros [k1 c1] [k2 c2] H.
  unfold agree in *. cbn [fst snd] in *.
  destruct H as (-> & Hid & Hname & Hind & Hexp & Hgap & _ & _).
  specialize (Hgap eq_refl).
  unfold estimateSensitivity. cbv zeta.
  cbn [set_sensitivityParameter json_component id name indicators totalExpenditures
       averagePerformanceGap sensitivityParameter weight].
  rewrite Hid, Hname, Hind, Hexp, Hgap.
  repeat split; try reflexivity. intro H. discriminate H.
Qed.

Lemma agree_assignComponentWeights (c : bool)
  (p : option (list (string * number))) (f : option ContextualFactors)
  (s1 s2 : list (string * FSFVIComponent)) :
  Forall2 (agree true true c) s1 s2 ->
  Forall2 (agree true true true) (assignComponentWeights s1 p f)
                                 (assignComponentWeights s2 p f).
Proof.
  intro H. unfold assignComponentWeights. cbv zeta.
  rewrite (workingWeights_keys (json_subsectors s1) (json_subsectors s2))
    by (rewrite !keys_json_subsectors; apply (agree_keys _ _ _ _ _ H)).
  set (w := workingWeights (json_subsectors s2) p f).
  unfold json_subsectors. rewrite !map_map.
  revert H. apply Forall2_map_both. intros [k1 c1] [k2 c2] H.
  unfold agree in *. cbn [fst snd] in *.
  destruct H as (-> & Hid & Hname & Hind & Hexp & Hgap & Hs & _).
  specialize (Hgap eq_refl). specialize (Hs eq_refl).
  cbn [set_weight json_component id name indicators totalExpenditures
       averagePerformanceGap sensitivityParameter weight].
  rewrite Hid, Hname, Hind, Hexp, Hgap, Hs.
  repeat split; reflexivity.
Qed.

Lemma agree_calculateVulnerabilities (a b c : bool) (config : option FSFVIConfig)
  (d1 d2 : FSFVIData) :
  totalBudget d1 = totalBudget d2 ->
  Forall2 (agree a b c) (subsectors d1) (subsectors d2) ->
  calculateVulnerabilities d1 config = calculateVulnerabilities d2 config.
Proof.
  intros Hb H. unfold calculateVulnerabilities. cbv zeta. rewrite Hb. f_equal.
  apply Forall2_eq_list.
  eapply Forall2_map_both;
    [| eapply agree_assignComponentWeights, agree_estimateSensitivityParameters,
             agree_preprocessData, H].
  intros [k1 c1] [k2 c2] Hc.
  unfold agree in Hc. cbn [fst snd] in Hc.
  destruct Hc as (-> & Hid & Hname & Hind & Hexp & Hgap & Hs & Hw).
  specialize (Hgap eq_refl). specialize (Hs eq_refl). specialize (Hw eq_refl).
  unfold set_vulnerability, componentVulnerability.
  rewrite Hid, Hname, Hind, Hexp, Hgap, Hs, Hw. reflexivity.
Qed.

Lemma computeFSFVI_sameInputs (d1 d2 : FSFVIData) (config : option FSFVIConfig) :
  sameInputs d1 d2 -> computeFSFVI d1 config = computeFSFVI d2 config.
Proof.
  intros [Hb H]. unfold computeFSFVI. cbv zeta.
  rewrite (agree_calculateVulnerabilities true false false
             (Some (effectiveConfig config))
             (preprocessData d1 (gapCalculation (effectiveConfig config))
                                (metricPreference (effectiveConfig config)))
             (preprocessData d2 (gapCalculation (effectiveConfig config))
                                (metricPreference (effectiveConfig config)))).
  - reflexivity.
  - unfold preprocessData. cbn [totalBudget]. exact Hb.
  - apply (agree_preprocessData _ _ _ _ _ _ false), H.
Qed.

(** X13.  Of a dataset the pipeline reads the budget and, for each
    component, the key, id, name, indicators and expenditures: the
    stored average gap, sensitivity, weight and vulnerability of the
    input have no effect on what [computeFSFVI] and
    [optimizeResourceAllocation] return. *)
Theorem computeFSFVI_reads_inputs_only (d1 d2 : FSFVIData)
  (config : option FSFVIConfig) :
  sameInputs d1 d2 ->
  computeFSFVI d1 config = computeFSFVI d2 config
  /\ optimizeResourceAllocation d1 = optimizeResourceAllocation d2.
Proof.
  intro H. split; [apply computeFSFVI_sameInputs, H |].
  unfold optimizeResourceAllocation, finalState. cbv zeta.
  rewrite (computeFSFVI_sameInputs d1 d2 None H).
  destruct H as [-> _]. reflexivity.
Qed.

Lemma computeFSFVI_reads_inputs_only_witness :
  sameInputs three_components
             (with_derived (Finite 9) (Some (Finite 2)) (Some (Finite 3)) None
                           three_components)
  /\ computeFSFVI three_components None
     = computeFSFVI (with_derived (Finite 9) (Some (Finite 2)) (Some (Finite 3)) None
                                  three_components) None
  /\ optimizeResourceAllocation three_components
     = optimizeResourceAllocation
         (with_derived (Finite 9) (Some (Finite 2)) (Some (Finite 3)) None
                       three_components).
Proof.
  assert (H : sameInputs three_components
                (with_derived (Finite 9) (Some (Finite 2)) (Some (Finite 3)) None
                              three_components)).
  { split; [reflexivity |].
    repeat constructor; intro E; discriminate E. }
  split; [exact H |].
  apply (computeFSFVI_reads_inputs_only _ _ None H).
Defined.

(* ================================================================= *)
(** ** The system index *)

Lemma fold_indexStep_counted (s : list (string * FSFVIComponent)) (acc : number) :
  fold_left indexStep (filter counted s) acc = fold_left indexStep s acc.
Proof.
  revert acc. induction s as [| [k c] s IH]; intro acc; simpl; [reflexivity |].
  unfold counted at 1. cbn [snd].
  destruct (weight c) as [w |] eqn:Ew, (vulnerability c) as [v |] eqn:Ev;
    simpl; rewrite IH; unfold indexStep; cbn [snd]; rewrite Ew, ?Ev; reflexivity.
Qed.

(** X14.  [calculateFSFVI] leaves out every component that lacks a
    weight or a vulnerability, and never reads the budget: the index is
    that of the components that have both. *)
Theorem calculateFSFVI_counted_only (s : list (string * FSFVIComponent))
  (b b' : number) :
  calculateFSFVI (mkData s b) = calculateFSFVI (mkData (filter counted s) b').
Proof.
  rewrite !calculateFSFVI_fold. cbn [subsectors].
  symmetry. apply fold_indexStep_counted.
Qed.

(* ================================================================= *)
(** ** The optimizer: the gradient *)

(** X15.  For a component as the pipeline leaves it (gap at least 0,
    positive sensitivity, weight at least 0) and an allocation at least
    0, the gradient is a finite number that is never positive: before
    clamping, a step never proposes to lower an allocation. *)
Theorem gradient_never_positive (c : FSFVIComponent) (a : Q) :
  pipelined c -> 0 <= a ->
  exists g, gradient c (Finite a) = Finite g /\ g <= 0.
Proof.
  intros (g & s & w & f & Hg & Hg0 & Hs & Hs0 & Hw & Hw0 & _) Ha.
  unfold gradient. cbv zeta. rewrite Hg, Hs, Hw.
  cbn [the opt_or npow2 nmul nadd].
  assert (Hsa : 0 <= s * a) by (apply Qmult_le_0_compat; lra).
  assert (Hd : 0 < (1 + s * a) * (1 + s * a)).
  { apply Qmult_lt_0_compat; lra. }
  rewrite ndiv_finite by lra. cbn [nmul].
  eexists. split; [reflexivity |].
  assert (Hx : 0 <= g * s / ((1 + s * a) * (1 + s * a))).
  { apply Qdiv_nonneg_pos; [| exact Hd]. apply Qmult_le_0_compat; lra. }
  assert (Hxw : 0 <= g * s / ((1 + s * a) * (1 + s * a)) * w).
  { apply Qmult_le_0_compat; assumption. }
  setoid_replace (-1 * g * s / ((1 + s * a) * (1 + s * a)) * w)
    with (- (g * s / ((1 + s * a) * (1 + s * a)) * w)) by (field; lra).
  lra.
Qed.

Lemma gradient_never_positive_witness :
  exists g,
    gradient (mkComponent "A" "A" [] (Finite 8) (Finite 0.882)
                          (Some (Finite 0.4)) (Some (Finite 0.5)) None)
             (Finite 8)
    = Finite g /\ g <= 0.
Proof.
  apply gradient_never_positive.
  - exists 0.882, 0.4, 0.5, 8.
    repeat split; try reflexivity; unfold Qle, Qlt; simpl; lia.
  - unfold Qle. simpl. lia.
Defined.

(* ================================================================= *)
(** ** The index of [computeFSFVI] *)


















(* ================================================================= *)
(** ** The diagnostics of [computeFSFVI] *)











(* ================================================================= *)
(** ** The optimizer: what is returned, and when the loop is left *)

(** X19.  The original allocations returned are the expenditures of the
    input, key by key (one that is not finite being read as 0), and the
    optimized allocations have exactly the keys of the input, in the
    same order: no component is added or dropped. *)
Theorem optimizeResourceAllocation_keys (data : FSFVIData) :
  let r := optimizeResourceAllocation data in
  originalAllocations r
  = map (fun p => (fst p, json_number (totalExpenditures (snd p)))) (subsectors data)
  /\ map fst (optimizedAllocations r) = map fst (subsectors data).
Proof.
  intro r. unfold r, optimizeResourceAllocation. cbv zeta.
  cbn [originalAllocations optimizedAllocations]. split.
  - apply allocationsOf_computeFSFVI.
  - unfold finalAllocations. cbv zeta. rewrite map_fst_tabulate.
    apply keys_computeFSFVI.
Qed.

Lemma loopCondition_enterIteration (st : LoopState) :
  loopCondition (enterIteration st) = false.
Proof.
  unfold loopCondition, enterIteration. cbn [iteration prevFSFVI currentFSFVI].
  apply andb_false_intro2.
  destruct (currentFSFVI st) as [x | | |]; try reflexivity.
  unfold ngtb, nsub, nneg, nadd, minImprovement, nltb.
  apply negb_false_iff, Qle_bool_iff. lra.
Qed.

Lemma optimizationLoop_exit (c : Constraints) (fuel : nat) (st : LoopState) :
  (maxIterations - iteration st <= fuel)%nat ->
  loopCondition (optimizationLoop fuel c st) = false.
Proof.
  revert st. induction fuel as [| fuel IH]; intros st H.
  - cbn [optimizationLoop]. unfold loopCondition.
    replace (iteration st <? maxIterations)%nat with false
      by (symmetry; apply Nat.ltb_ge; lia).
    reflexivity.
  - rewrite optimizationLoop_S. destruct (loopCondition st) eqn:E; [| exact E].
    destruct (iterationBody c (enterIteration st)) as [st' |] eqn:Eb.
    + apply IH. apply iterationBody_iteration in Eb.
      cbn [enterIteration iteration] in Eb. lia.
    + apply loopCondition_enterIteration.
Qed.

Lemma optimizationLoop_iteration (c : Constraints) (fuel : nat) (st : LoopState) :
  (iteration st <= maxIterations)%nat ->
  (iteration (optimizationLoop fuel c st) <= maxIterations)%nat.
Proof.
  revert st. induction fuel as [| fuel IH]; intros st H; [exact H |].
  rewrite optimizationLoop_S. destruct (loopCondition st) eqn:E; [| exact H].
  unfold loopCondition in E. apply andb_prop in E as [E _].
  apply Nat.ltb_lt in E.
  destruct (iterationBody c (enterIteration st)) as [st' |] eqn:Eb.
  - apply IH. apply iterationBody_iteration in Eb.
    cbn [enterIteration iteration] in Eb. lia.
  - cbn [enterIteration iteration]. lia.
Qed.

(** X20.  The loop is always left for one of its own reasons: in the
    state in which it is left its condition is false (100 iterations
    done, or an improvement of at most 0.0001, which includes the state
    after the [break] on a zero gradient), and at most 100 iterations
    have been counted. *)
Theorem optimizationLoop_ends (data : FSFVIData) :
  loopCondition (finalState data) = false
  /\ (iteration (finalState data) <= maxIterations)%nat.
Proof.
  split.
  - unfold finalState. apply optimizationLoop_exit.
    cbn [initialState iteration]. lia.
  - unfold finalState. apply optimizationLoop_iteration.
    cbn [initialState iteration]. unfold maxIterations. lia.
Qed.

(* ================================================================= *)
(** ** The UI adapter *)

Lemma keys_assign_allocation (id : string) (a : number)
  (s : list (string * FSFVIComponent)) :
  map fst (assign_allocation id a s) = map fst s.
Proof.
  unfold assign_allocation. rewrite map_map. apply map_ext.
  intros [k c]. destruct (String.eqb k id); reflexivity.
Qed.

Lemma assign_allocation_unknown (id : string) (a : number)
  (s : list (string * FSFVIComponent)) :
  ~ In id (map fst s) -> assign_allocation id a s = s.
Proof.
  intro H. unfold assign_allocation. rewrite <- (map_id s) at 2.
  apply map_ext_in. intros [k c] Hin.
  destruct (String.eqb_spec k id) as [-> | _]; [| reflexivity].
  exfalso. apply H. apply in_map_iff. exists (id, c). split; [reflexivity | exact Hin].
Qed.

Lemma keys_applyCustomAllocations (custom : option (list (string * number)))
  (s : list (string * FSFVIComponent)) :
  map fst (applyCustomAllocations custom s) = map fst s.
Proof.
  destruct custom as [allocations |]; [| reflexivity]. cbn [applyCustomAllocations].
  revert s. induction allocations as [| [k a] l IH]; intro s; simpl; [reflexivity |].
  rewrite IH. apply keys_assign_allocation.
Qed.

Lemma applyCustomAllocations_app (l1 l2 : list (string * number))
  (s : list (string * FSFVIComponent)) :
  applyCustomAllocations (Some (l1 ++ l2)) s
  = applyCustomAllocations (Some l2) (applyCustomAllocations (Some l1) s).
Proof. cbn [applyCustomAllocations]. apply fold_left_app. Qed.

(** X21.  A custom allocation for an id that is not a component of the
    data is ignored by [runFSFVIComputation]. *)
Theorem runFSFVIComputation_unknown_allocation
  (kenyaData : list (string * FSFVIComponent)) (before after : list (string * number))
  (id : string) (a : number) (config : option FSFVIConfig) :
  ~ In id (map fst kenyaData) ->
  runFSFVIComputation kenyaData (Some (before ++ (id, a) :: after)) config
  = runFSFVIComputation kenyaData (Some (before ++ after)) config.
Proof.
  intro H. unfold runFSFVIComputation, adapterSubsectors. cbv zeta.
  set (s := assignComponentWeights _ _ _).
  assert (Hs : map fst s = map fst kenyaData).
  { unfold s, withIds.
    rewrite keys_assignComponentWeights, keys_estimateSensitivityParameters.
    apply (map_fst_entries (fun id c => set_id c id)). }
  assert (E : applyCustomAllocations (Some (before ++ (id, a) :: after)) s
              = applyCustomAllocations (Some (before ++ after)) s).
  { rewrite !applyCustomAllocations_app.
    change (applyCustomAllocations (Some ((id, a) :: after))
              (applyCustomAllocations (Some before) s))
      with (applyCustomAllocations (Some after)
              (assign_allocation id a (applyCustomAllocations (Some before) s))).
    rewrite assign_allocation_unknown; [reflexivity |].
    rewrite keys_applyCustomAllocations, Hs. exact H. }
  rewrite E. reflexivity.
Qed.

Lemma runFSFVIComputation_unknown_allocation_witness :
  runFSFVIComputation (subsectors three_components)
    (Some ([("A"%string, Finite 3)] ++ ("Z"%string, Finite 100) :: [])) None
  = runFSFVIComputation (subsectors three_components)
      (Some ([("A"%string, Finite 3)] ++ [])) None.
Proof.
  apply runFSFVIComputation_unknown_allocation.
  simpl. intros [H | [H | [H | []]]]; discriminate H.
Defined.

Lemma applyCustomAllocations_fields {A : Type} (h : string -> FSFVIComponent -> A)
  (custom : option (list (string * number))) (s : list (string * FSFVIComponent)) :
  (forall k c a, h k (set_allocation c a) = h k c) ->
  map (fun '(k, c) => h k c) (applyCustomAllocations custom s)
  = map (fun '(k, c) => h k c) s.
Proof.
  intro Hh. destruct custom as [allocations |]; [| reflexivity].
  cbn [applyCustomAllocations].
  revert s. induction allocations as [| [id a] l IH]; intro s; simpl; [reflexivity |].
  rewrite IH. unfold assign_allocation. rewrite map_map. apply map_ext.
  intros [k c]. destruct (String.eqb k id); [apply Hh | reflexivity].
Qed.

(** X22.  Custom allocations change what [runFSFVIComputation] lists
    as allocation and vulnerability only: the id, name, gap and weight
    of every component are those listed without custom allocations. *)
Theorem runFSFVIComputation_custom_allocations
  (kenyaData : list (string * FSFVIComponent))
  (customAllocations : option (list (string * number))) (config : option FSFVIConfig) :
  map metricParameters
      (Computation.componentMetrics
         (runFSFVIComputation kenyaData customAllocations config))
  = map metricParameters
        (Computation.componentMetrics (runFSFVIComputation kenyaData None config)).
Proof.
  unfold runFSFVIComputation, adapterSubsectors. cbv zeta.
  cbn [Computation.componentMetrics].
  set (s := assignComponentWeights _ _ _).
  assert (E : forall l,
            map metricParameters
                (map (fun '(id, subsector) => componentMetric id subsector)
                     (map (fun '(id, subsector) =>
                             (id, set_vulnerability subsector
                                    (adapterVulnerability subsector))) l))
            = map (fun '(k, c) => (k, name c, averagePerformanceGap c,
                                   nor (the (weight c)) (Finite 0))) l).
  { intro l. rewrite !map_map. apply map_ext. intros [k c]. reflexivity. }
  rewrite !E.
  apply (applyCustomAllocations_fields
           (fun k c => (k, name c, averagePerformanceGap c,
                        nor (the (weight c)) (Finite 0)))).
  reflexivity.
Qed.

(** After the two estimation steps a component with an expenditure that
    is not negative has a positive sensitivity and a finite expenditure
    at least 0. *)
Lemma adapter_ready (s : list (string * FSFVIComponent))
  (p : option (list (string * number))) (f : option ContextualFactors) :
  Forall (fun e => nltb (totalExpenditures (snd e)) (Finite 0) = false) s ->
  Forall (fun e => exists x a,
            sensitivityParameter (snd e) = Some (Finite x) /\ 0 < x
            /\ totalExpenditures (snd e) = Finite a /\ 0 <= a)
         (assignComponentWeights (estimateSensitivityParameters s) p f).
Proof.
  intro H.
  unfold assignComponentWeights, estimateSensitivityParameters, json_subsectors.
  cbv zeta. rewrite !map_map. apply Forall_map.
  eapply Forall_impl; [| exact H].
  intros [k c] Hc. cbn [snd] in *.
  assert (Hf : exists a, totalExpenditures (json_component c) = Finite a /\ 0 <= a).
  { cbn [json_component totalExpenditures].
    destruct (totalExpenditures c) as [a | | |]; cbn [json_number nltb] in *;
      try discriminate; try (exists 0; split; [reflexivity | lra]).
    exists a. split; [reflexivity |].
    apply negb_false_iff, Qle_bool_iff in Hc. exact Hc. }
  assert (Hg : exists g, averagePerformanceGap (json_component c) = Finite g).
  { cbn [json_component averagePerformanceGap].
    destruct (averagePerformanceGap c); cbn [json_number]; eauto. }
  destruct Hf as (a & Hf & Ha). destruct Hg as (g & Hg).
  destruct (estimateSensitivity_bounds k (json_component c) a g Hf Hg)
    as (x & Hx & Hx1 & _).
  exists x, a.
  cbn [set_weight set_sensitivityParameter json_component sensitivityParameter
       totalExpenditures option_map].
  rewrite Hx. cbn [json_component totalExpenditures] in Hf. rewrite Hf.
  cbn [json_number]. repeat split; try assumption. lra.
Qed.

Lemma adapterVulnerability_componentVulnerability (c : FSFVIComponent) (x a : Q) :
  sensitivityParameter c = Some (Finite x) -> 0 < x ->
  totalExpenditures c = Finite a -> 0 <= a ->
  adapterVulnerability c = componentVulnerability c.
Proof.
  intros Hx Hx0 Ha Ha0.
  unfold adapterVulnerability, componentVulnerability, calculateComponentVulnerability.
  cbv zeta. rewrite Hx, Ha. cbn [the opt_or].
  assert (E1 : nor (Finite x) (Finite 0.4) = Finite x).
  { unfold nor, truthy. destruct (Qeq_bool_spec x 0); [lra | reflexivity]. }
  assert (E2 : nmax (Finite 0) (Finite a) = Finite a).
  { unfold nmax, nleb. destruct (Qle_bool_spec 0 a); [reflexivity | lra]. }
  rewrite E1, E2. reflexivity.
Qed.

(** X23.  On data whose components carry their key as id, have no
    negative expenditure and already hold the gaps that preprocessing
    gives, and under a configuration without policy multipliers,
    [runFSFVIComputation] without custom allocations computes the
    components and the index that [calculateVulnerabilities] and
    [calculateFSFVI] compute. *)
Theorem runFSFVIComputation_agrees (data : FSFVIData) (config : option FSFVIConfig) :
  Forall (fun p => id (snd p) = fst p) (subsectors data) ->
  Forall (fun p => nltb (totalExpenditures (snd p)) (Finite 0) = false)
         (subsectors data) ->
  opt_or (opt_field config policyPriorities) [] = [] ->
  subsectors (preprocessData data (opt_field config gapCalculation)
                                  (opt_field config metricPreference))
  = subsectors data ->
  adapterSubsectors (subsectors data) None config
  = subsectors (calculateVulnerabilities data config)
  /\ Computation.fsfviValue (runFSFVIComputation (subsectors data) None config)
     = calculateFSFVI (calculateVulnerabilities data config).
Proof.
  intros Hid Hexp Hpol Hpre.
  assert (E : adapterSubsectors (subsectors data) None config
              = subsectors (calculateVulnerabilities data config)).
  { unfold adapterSubsectors, calculateVulnerabilities. cbv zeta.
    cbn [subsectors applyCustomAllocations]. rewrite Hpre.
    assert (Hids : withIds (subsectors data) = subsectors data).
    { unfold withIds. rewrite <- (map_id (subsectors data)) at 2.
      apply map_ext_in. intros [k c] Hin.
      rewrite Forall_forall in Hid. specialize (Hid _ Hin). cbn [fst snd] in Hid.
      unfold set_id. rewrite <- Hid. destruct c; reflexivity. }
    rewrite Hids.
    assert (Hp : assignComponentWeights
                   (estimateSensitivityParameters (subsectors data)) None
                   (opt_field config contextualFactors)
                 = assignComponentWeights
                     (estimateSensitivityParameters (subsectors data))
                     (opt_field config policyPriorities)
                     (opt_field config contextualFactors)).
    { destruct (opt_field config policyPriorities) as [[| e l] |];
        [reflexivity | discriminate Hpol | reflexivity]. }
    rewrite Hp. apply map_ext_in. intros [k c] Hin.
    pose proof (adapter_ready (subsectors data) (opt_field config policyPriorities)
                  (opt_field config contextualFactors) Hexp) as Hready.
    rewrite Forall_forall in Hready.
    destruct (Hready _ Hin) as (x & a & Hx & Hx0 & Ha & Ha0). cbn [snd] in *.
    rewrite (adapterVulnerability_componentVulnerability c x a); auto. }
  split; [exact E |].
  unfold runFSFVIComputation. cbv zeta. cbn [Computation.fsfviValue].
  rewrite E, !calculateFSFVI_fold. reflexivity.
Qed.

Lemma runFSFVIComputation_agrees_witness :
  let data := preprocessData three_components None None in
  adapterSubsectors (subsectors data) None None
  = subsectors (calculateVulnerabilities data None)
  /\ Computation.fsfviValue (runFSFVIComputation (subsectors data) None None)
     = calculateFSFVI (calculateVulnerabilities data None).
Proof.
  intro data. apply runFSFVIComputation_agrees.
  - repeat constructor.
  - repeat constructor.
  - reflexivity.
  - vm_compute. reflexivity.
Defined.
